(** * Claim-processing pipeline of [backend_logic.py]: a shallow embedding

    The Python values that flow through the pipeline are the values produced
    by [json.loads] (plus the [date] objects made by [parse_date]); the
    helpers of the module are translated as functions over them.  An
    operation that can raise in Python returns in the [exc] monad, so that
    "does not raise" is a statement about the translated function and not a
    consequence of its type. *)

From Stdlib Require Import List String Ascii ZArith Bool Lia Arith.
From Stdlib Require Import SpecFloat.
Import ListNotations.
Open Scope string_scope.
Open Scope Z_scope.

Set Implicit Arguments.
Set Warnings "-register-all".

(* ================================================================== *)
(** ** Exceptions and the error monad *)

Inductive exn : Type :=
| ValueError (msg : string)
| RuntimeError (msg : string)
| KeyError (key : string)
| IndexError
| TypeError
| AttributeError
| ExternalError (msg : string).

Definition exc (A : Type) : Type := (exn + A)%type.

Definition ret {A : Type} (a : A) : exc A := inr a.
Definition raise {A : Type} (e : exn) : exc A := inl e.
Definition bind {A B : Type} (m : exc A) (f : A -> exc B) : exc B :=
  match m with
  | inl e => inl e
  | inr a => f a
  end.

Declare Scope exc_scope.
Delimit Scope exc_scope with exc.
Notation "x <- m ;; k" := (bind m (fun x => k))
  (at level 61, m at next level, right associativity) : exc_scope.
Open Scope exc_scope.

Definition raises {A : Type} (m : exc A) : bool :=
  match m with inl _ => true | inr _ => false end.

(** A [for] loop whose body may raise: the accumulator is threaded from left
    to right and the first exception ends the loop. *)
Fixpoint for_each {A B : Type} (body : A -> B -> exc A) (xs : list B) (a : A)
  : exc A :=
  match xs with
  | [] => ret a
  | x :: xs' => a' <- body a x ;; for_each body xs' a'
  end.

(* ================================================================== *)
(** ** Python values

    [PFile] is an uploaded file object, with its [name] and the bytes that
    [read()] returns. *)

Record date : Type := mkdate { year : Z; month : Z; day : Z }.

Inductive pyval : Type :=
| PNone
| PBool (b : bool)
| PInt (z : Z)
| PFloat (f : spec_float)
| PStr (s : string)
| PDate (d : date)
| PFile (name : string) (content : string)
| PList (l : list pyval)
| PDict (d : list (string * pyval)).

(** A [dict] is its list of entries in insertion order; keys are unique in
    every dict built by [json.loads] or by the functions below, and a lookup
    returns the entry found first. *)
Definition dict : Type := list (string * pyval).

Fixpoint dict_get (k : string) (d : dict) : option pyval :=
  match d with
  | [] => None
  | (k', v) :: d' => if String.eqb k k' then Some v else dict_get k d'
  end.

Definition dict_mem (k : string) (d : dict) : bool :=
  match dict_get k d with Some _ => true | None => false end.

(** [d[k] = v]: an existing key keeps its position. *)
Fixpoint dict_set (k : string) (v : pyval) (d : dict) : dict :=
  match d with
  | [] => [(k, v)]
  | (k', v') :: d' =>
      if String.eqb k k' then (k', v) :: d' else (k', v') :: dict_set k v d'
  end.

Definition dict_keys (d : dict) : list string := map fst d.

(** [d[k]] *)
Definition dict_getitem (k : string) (d : dict) : exc pyval :=
  match dict_get k d with
  | Some v => ret v
  | None => raise (KeyError k)
  end.

(** [d.get(k, default)] *)
Definition dict_get_default (k : string) (default : pyval) (d : dict) : pyval :=
  match dict_get k d with
  | Some v => v
  | None => default
  end.

(** [x.get(k, default)] on an arbitrary value: only a dict has [get]. *)
Definition py_get (x : pyval) (k : string) (default : pyval) : exc pyval :=
  match x with
  | PDict d => ret (dict_get_default k default d)
  | _ => raise AttributeError
  end.

(** [bool(x)], which is also the test of [if x] and [not x]. *)
Definition truthy (x : pyval) : bool :=
  match x with
  | PNone => false
  | PBool b => b
  | PInt z => negb (z =? 0)
  | PFloat f => match f with S754_zero _ => false | _ => true end
  | PStr s => negb (String.eqb s "")
  | PDate _ => true
  | PFile _ _ => true
  | PList l => match l with [] => false | _ => true end
  | PDict d => match d with [] => false | _ => true end
  end.

Definition isinstance_dict (x : pyval) : bool :=
  match x with PDict _ => true | _ => false end.

Definition isinstance_list (x : pyval) : bool :=
  match x with PList _ => true | _ => false end.

Definition isinstance_str (x : pyval) : bool :=
  match x with PStr _ => true | _ => false end.

(** [x is True] *)
Definition is_True (x : pyval) : bool :=
  match x with PBool true => true | _ => false end.

(* ================================================================== *)
(** ** Helpers *)

(** The [for item in field] loop of [safe_extract]: the value of the first
    item that is a dict with a ["value"] key. *)
Fixpoint safe_extract_loop (items : list pyval) : exc (option pyval) :=
  match items with
  | [] => ret None
  | item :: rest =>
      match item with
      | PDict d =>
          if dict_mem "value" d
          then v <- dict_getitem "value" d ;; ret (Some v)
          else safe_extract_loop rest
      | _ => safe_extract_loop rest
      end
  end.

Definition safe_extract (field : pyval) : exc pyval :=
  if negb (truthy field) then ret PNone
  else
    match field with
    | PList l =>
        found <- safe_extract_loop l ;;
        match found with
        | Some v => ret v
        | None =>
            if truthy field
            then match l with x :: _ => ret x | [] => raise IndexError end
            else ret PNone
        end
    | PDict d => ret (dict_get_default "value" PNone d)
    | _ => ret field
    end.

(** The literal that [normalize_comparison] starts from. *)
Definition normalized_default : dict :=
  [ ("name", PDict [("claim_table", PBool false)]);
    ("license_no", PDict [("claim_table", PBool false); ("dl_table", PBool false)]);
    ("address", PDict [("claim_table", PBool false); ("dl_table", PBool false)]);
    ("car_make", PDict [("claim_car", PBool false)]);
    ("car_model", PDict [("claim_car", PBool false)]);
    ("car_color", PDict [("claim_car", PBool false)]);
    ("damage_details", PDict [("claim_car", PBool false)]);
    ("license_validity", PBool false) ].

(** One pass of the inner loop, [normalized[key][subkey] = bool(...)]. *)
Definition normalize_subkey (field_data : dict) (sub : dict) (subkey : string)
  : exc dict :=
  ret (dict_set subkey
         (PBool (truthy (dict_get_default subkey (PBool false) field_data))) sub).

(** One pass of the outer loop of [normalize_comparison]. *)
Definition normalize_key (data : dict) (normalized : dict) (key : string)
  : exc dict :=
  if String.eqb key "license_validity" then
    ret (dict_set key
           (PBool (truthy (dict_get_default key (PBool false) data))) normalized)
  else
    let field_data :=
      match dict_get_default key (PDict []) data with
      | PDict fd => fd
      | _ => []
      end in
    entry <- dict_getitem key normalized ;;
    match entry with
    | PDict sub =>
        sub' <- for_each (normalize_subkey field_data) (dict_keys sub) sub ;;
        ret (dict_set key (PDict sub') normalized)
    | _ => raise TypeError
    end.

Definition normalize_comparison (data : pyval) : exc pyval :=
  let normalized := normalized_default in
  match data with
  | PDict d =>
      n <- for_each (normalize_key d) (dict_keys normalized) normalized ;;
      ret (PDict n)
  | _ => ret (PDict normalized)
  end.

(* ================================================================== *)
(** ** The decision block of [compare_and_email] *)

Definition required_fields : list (string * list string) :=
  [ ("name", ["claim_table"]);
    ("license_no", ["claim_table"; "dl_table"]);
    ("address", ["claim_table"; "dl_table"]);
    ("car_make", ["claim_car"]);
    ("car_model", ["claim_car"]);
    ("car_color", ["claim_car"]);
    ("damage_details", ["claim_car"]);
    ("license_validity", []) ].

(** The body of [for sub in subfields]. *)
Definition check_subfield (field_result : pyval) (all_match : bool) (sub : string)
  : exc bool :=
  v <- py_get field_result sub PNone ;;
  ret (if negb (is_True v) then false else all_match).

(** The body of [for field, subfields in required_fields]. *)
Definition check_field (comparison : pyval) (all_match : bool)
  (fs : string * list string) : exc bool :=
  let (field, subfields) := fs in
  field_result <- py_get comparison field (PDict []) ;;
  if String.eqb field "license_validity" then
    field_result' <-
      (if isinstance_dict field_result
       then py_get field_result "value" (PBool false)
       else ret field_result) ;;
    ret (truthy field_result')
  else
    for_each (check_subfield field_result) subfields all_match.

Definition all_match_of (comparison : pyval) : exc bool :=
  for_each (check_field comparison) required_fields true.

Definition decision_of (comparison : pyval) : exc string :=
  all_match <- all_match_of comparison ;;
  ret (if all_match then "Claim Accepted" else "Claim Rejected").

(* ================================================================== *)
(** ** Strings

    A [str] is modelled by [string]; a character stands for a code point
    below 256. *)

Definition code (c : ascii) : N := N_of_ascii c.

(** [str.isspace] on one character, which is also the class [\s] of [re]. *)
Definition is_space (c : ascii) : bool :=
  let n := code c in
  ((9 <=? n) && (n <=? 13) || (28 <=? n) && (n <=? 32)
   || (n =? 133) || (n =? 160))%N.

Definition is_digit (c : ascii) : bool :=
  let n := code c in ((48 <=? n) && (n <=? 57))%N.

Fixpoint lstrip (s : string) : string :=
  match s with
  | String c s' => if is_space c then lstrip s' else s
  | EmptyString => EmptyString
  end.

Fixpoint rstrip (s : string) : string :=
  match s with
  | EmptyString => EmptyString
  | String c s' =>
      match rstrip s' with
      | EmptyString => if is_space c then EmptyString else String c EmptyString
      | r => String c r
      end
  end.

(** [s.strip()] *)
Definition strip (s : string) : string := rstrip (lstrip s).

(** [needle in hay] *)
Fixpoint contains (needle hay : string) : bool :=
  String.prefix needle hay ||
  match hay with
  | EmptyString => false
  | String _ hay' => contains needle hay'
  end.

(** [int(s)] for an unsigned decimal numeral, blanks around it allowed. *)
Fixpoint digits_value (s : string) (acc : Z) : exc Z :=
  match s with
  | EmptyString => ret acc
  | String c s' =>
      if is_digit c
      then digits_value s' (10 * acc + Z.of_N (code c - 48))
      else raise (ValueError "invalid literal for int()")
  end.

Definition py_int (s : string) : exc Z :=
  match strip s with
  | EmptyString => raise (ValueError "invalid literal for int()")
  | t => digits_value t 0
  end.

Definition digit_char (z : Z) : ascii := ascii_of_N (48 + Z.to_N (z mod 10)).

(** [width] low decimal digits of [z], most significant first. *)
Fixpoint zero_padded (width : nat) (z : Z) : string :=
  match width with
  | O => EmptyString
  | S w => zero_padded w (z / 10) ++ String (digit_char z) EmptyString
  end.

(* ================================================================== *)
(** ** Dates and [datetime.strptime]

    [strptime] turns the format into a regular expression, one group per
    directive, matches it at the start of the text, and refuses a match that
    does not reach the end.  The groups of the four directives used by
    [parse_date] are alternatives of fixed sequences of character classes,
    tried from left to right with backtracking. *)

Definition is_leap (y : Z) : bool :=
  ((y mod 4 =? 0) && negb (y mod 100 =? 0)) || (y mod 400 =? 0).

Definition days_in_month (y m : Z) : Z :=
  if m =? 2 then (if is_leap y then 29 else 28)
  else if (m =? 4) || (m =? 6) || (m =? 9) || (m =? 11) then 30
  else 31.

Definition valid_date (y m d : Z) : bool :=
  (1 <=? y) && (y <=? 9999) && (1 <=? m) && (m <=? 12) &&
  (1 <=? d) && (d <=? days_in_month y m).

(** [date(y, m, d)] *)
Definition make_date (y m d : Z) : exc date :=
  if valid_date y m d then ret (mkdate y m d)
  else raise (ValueError "date value out of range").

(** [dt.replace(year=y)] *)
Definition replace_year (dt : date) (y : Z) : exc date :=
  make_date y (month dt) (day dt).

(** [d.isoformat()] *)
Definition isoformat (d : date) : string :=
  zero_padded 4 (year d) ++ "-" ++ zero_padded 2 (month d) ++ "-"
  ++ zero_padded 2 (day d).

Inductive cclass : Type :=
| CDigit                      (* \d *)
| CRange (lo hi : ascii)      (* [lo-hi] *)
| CChar (c : ascii).

Definition in_class (k : cclass) (c : ascii) : bool :=
  match k with
  | CDigit => is_digit c
  | CRange lo hi => ((code lo <=? code c) && (code c <=? code hi))%N
  | CChar c' => Ascii.eqb c c'
  end.

(** A sequence of classes against the start of [s]: the text matched and the
    rest. *)
Fixpoint match_classes (ks : list cclass) (s : string) : option (string * string) :=
  match ks with
  | [] => Some (EmptyString, s)
  | k :: ks' =>
      match s with
      | String c s' =>
          if in_class k c then
            match match_classes ks' s' with
            | Some (tok, rest) => Some (String c tok, rest)
            | None => None
            end
          else None
      | EmptyString => None
      end
  end.

Inductive item : Type :=
| Lit (c : ascii)
| Dir (c : ascii).

(** The format string, cut into literal characters and [%x] directives. *)
Fixpoint format_items (fmt : string) : list item :=
  match fmt with
  | EmptyString => []
  | String "%" (String x fmt') => Dir x :: format_items fmt'
  | String c fmt' => Lit c :: format_items fmt'
  end.

(** The group of a directive:
    [%d] is [3[0-1]|[1-2]\d|0[1-9]|[1-9]| [1-9]], [%m] is
    [1[0-2]|0[1-9]|[1-9]], [%Y] is [\d\d\d\d], [%y] is [\d\d]. *)
Definition directive_alternatives (x : ascii) : list (list cclass) :=
  if Ascii.eqb x "d" then
    [ [CChar "3"; CRange "0" "1"]; [CRange "1" "2"; CDigit];
      [CChar "0"; CRange "1" "9"]; [CRange "1" "9"];
      [CChar " "; CRange "1" "9"] ]
  else if Ascii.eqb x "m" then
    [ [CChar "1"; CRange "0" "2"]; [CChar "0"; CRange "1" "9"];
      [CRange "1" "9"] ]
  else if Ascii.eqb x "Y" then [ [CDigit; CDigit; CDigit; CDigit] ]
  else if Ascii.eqb x "y" then [ [CDigit; CDigit] ]
  else [].

Definition groups : Type := list (ascii * string).

(** The alternatives of one group in order; an alternative is kept only if
    the rest of the expression, [k], matches after it. *)
Fixpoint first_alternative {A : Type} (alts : list (list cclass)) (s : string)
  (k : string -> string -> option A) : option A :=
  match alts with
  | [] => None
  | a :: alts' =>
      match match_classes a s with
      | Some (tok, rest) =>
          match k tok rest with
          | Some r => Some r
          | None => first_alternative alts' s k
          end
      | None => first_alternative alts' s k
      end
  end.

(** [format_regex.match(data_string)]: the groups and the unmatched rest. *)
Fixpoint match_items (items : list item) (s : string) (found : groups)
  : option (groups * string) :=
  match items with
  | [] => Some (found, s)
  | Lit c :: items' =>
      match s with
      | String c' s' =>
          if Ascii.eqb c c' then match_items items' s' found else None
      | EmptyString => None
      end
  | Dir x :: items' =>
      first_alternative (directive_alternatives x) s
        (fun tok rest => match_items items' rest ((x, tok) :: found))
  end.

Fixpoint group (x : ascii) (found : groups) : option string :=
  match found with
  | [] => None
  | (x', tok) :: found' => if Ascii.eqb x x' then Some tok else group x found'
  end.

(** The value of group [x] as an integer, [default] when the format has no
    such directive. *)
Definition group_int (x : ascii) (default : Z) (found : groups) : exc Z :=
  match group x found with
  | Some tok => py_int tok
  | None => ret default
  end.

(** [datetime.strptime(data_string, format)]; the time of day is midnight for
    every format used here, so the result is kept as a [date]. *)
Definition strptime (data_string format : string) : exc date :=
  match match_items (format_items format) data_string [] with
  | None => raise (ValueError "time data does not match format")
  | Some (found, rest) =>
      if negb (String.eqb rest "")
      then raise (ValueError "unconverted data remains")
      else
        y4 <- group_int "Y" 1900 found ;;
        y <- match group "y" found with
             | Some tok =>
                 yy <- py_int tok ;;
                 ret (if yy <=? 68 then yy + 2000 else yy + 1900)
             | None => ret y4
             end ;;
        m <- group_int "m" 1 found ;;
        d <- group_int "d" 1 found ;;
        make_date y m d
  end.

Definition formats : list string :=
  ["%d/%m/%Y"; "%d/%m/%y"; "%m/%d/%Y"; "%m/%d/%y"; "%Y-%m-%d"].

(** The body of the [try] in [parse_date]. *)
Definition try_format (value fmt : string) : exc date :=
  dt <- strptime value fmt ;;
  if contains "%y" fmt && (year dt <? 1930)
  then replace_year dt (year dt + 100)
  else ret dt.

(** [for fmt in formats], with [except ValueError: continue]. *)
Fixpoint parse_date_loop (value : string) (fmts : list string) : exc pyval :=
  match fmts with
  | [] => ret PNone
  | fmt :: fmts' =>
      match try_format value fmt with
      | inr dt => ret (PDate dt)
      | inl (ValueError _) => parse_date_loop value fmts'
      | inl e => raise e
      end
  end.

Definition parse_date (value : pyval) : exc pyval :=
  if negb (truthy value) || negb (isinstance_str value) then ret PNone
  else
    match value with
    | PStr s => parse_date_loop (strip s) formats
    | _ => raise AttributeError
    end.

(** [normalize_dates]: every [date] value becomes its ISO string. *)
Definition normalize_dates (record : dict) : dict :=
  map (fun kv => (fst kv,
                  match snd kv with
                  | PDate d => PStr (isoformat d)
                  | v => v
                  end)) record.

(* ================================================================== *)
(** ** Regular expressions of the stages *)

(** The class [\w] of [re] on a [str] pattern: alphanumeric characters and
    the underscore. *)
Definition is_word (c : ascii) : bool :=
  let n := code c in
  ((48 <=? n) && (n <=? 57) || (65 <=? n) && (n <=? 90)
   || (97 <=? n) && (n <=? 122) || (n =? 95)
   || (n =? 170) || (n =? 178) || (n =? 179) || (n =? 181) || (n =? 185)
   || (n =? 186) || (188 <=? n) && (n <=? 190)
   || (192 <=? n) && (n <=? 214) || (216 <=? n) && (n <=? 246)
   || (248 <=? n))%N.

Definition newline : ascii := ascii_of_N 10.

(** The class [[\w-]]. *)
Definition license_char (c : ascii) : bool := is_word c || Ascii.eqb c "-".

(** [re.match(r'^[\w-]+$', s)] after the first character: [+] takes every
    character of the class, and [$] holds at the end of the text or before a
    newline that ends it. *)
Fixpoint license_tail (s : string) : bool :=
  match s with
  | EmptyString => true
  | String c s' =>
      if license_char c then license_tail s'
      else Ascii.eqb c newline && String.eqb s' ""
  end.

Definition re_match_license (s : string) : bool :=
  match s with
  | EmptyString => false
  | String c s' => license_char c && license_tail s'
  end.

(** [c.lower()] *)
Definition lower_char (c : ascii) : ascii :=
  let n := code c in
  if ((65 <=? n) && (n <=? 90)
      || (192 <=? n) && (n <=? 222) && negb (n =? 215))%N
  then ascii_of_N (n + 32) else c.

Fixpoint lower (s : string) : string :=
  match s with
  | EmptyString => EmptyString
  | String c s' => String (lower_char c) (lower s')
  end.

(** A literal of the pattern against the start of the text, letters compared
    without case ([re.IGNORECASE]); the rest of the text on success. *)
Fixpoint literal_nocase (lit s : string) : option string :=
  match lit, s with
  | EmptyString, _ => Some s
  | String a lit', String b s' =>
      if Ascii.eqb (lower_char a) (lower_char b) then literal_nocase lit' s'
      else None
  | String _ _, EmptyString => None
  end.

(** [$]: the end of the text, or a newline that ends it. *)
Definition at_dollar (s : string) : bool :=
  String.eqb s "" || String.eqb s (String newline EmptyString).

(** [(.+?)(,|$)] once [taken] (not empty) has been consumed by the lazy
    group: stop at the first position followed by a comma or by [$], take one
    more character otherwise; [.] does not match a newline. *)
Fixpoint lazy_until_end (taken s : string) : option string :=
  if String.prefix "," s || at_dollar s then Some taken
  else
    match s with
    | EmptyString => None
    | String c s' =>
        if Ascii.eqb c newline then None
        else lazy_until_end (taken ++ String c EmptyString) s'
    end.

Definition lazy_group (s : string) : option string :=
  match s with
  | EmptyString => None
  | String c s' =>
      if Ascii.eqb c newline then None
      else lazy_until_end (String c EmptyString) s'
  end.

(** [\s*(.+?)(,|$)]: the greedy [\s*] first takes every blank and gives them
    back one at a time while the rest fails. *)
Fixpoint spaces_then_group (s : string) : option string :=
  match s with
  | String c s' =>
      if is_space c then
        match spaces_then_group s' with
        | Some g => Some g
        | None => lazy_group s
        end
      else lazy_group s
  | EmptyString => lazy_group s
  end.

(** [re.search(r"Color:\s*(.+?)(,|$)", text, re.IGNORECASE)]: [group(1)] of
    the leftmost match. *)
Fixpoint re_search_color (text : string) : option string :=
  match
    match literal_nocase "Color:" text with
    | Some rest => spaces_then_group rest
    | None => None
    end
  with
  | Some g => Some g
  | None =>
      match text with
      | EmptyString => None
      | String _ text' => re_search_color text'
      end
  end.

(** The text up to the last closing brace, that brace included. *)
Fixpoint upto_last_brace (s : string) : option string :=
  match s with
  | EmptyString => None
  | String c s' =>
      match upto_last_brace s' with
      | Some t => Some (String c t)
      | None => if Ascii.eqb c "}" then Some (String c EmptyString) else None
      end
  end.

(** [re.search(r"\{.*\}", text, re.DOTALL)]: [group(0)], from the first
    opening brace to the last closing brace after it. *)
Fixpoint re_search_braces (text : string) : option string :=
  match text with
  | EmptyString => None
  | String c text' =>
      if Ascii.eqb c "{" then
        match upto_last_brace text' with
        | Some t => Some (String c t)
        | None => None
        end
      else re_search_braces text'
  end.

(* ================================================================== *)
(** ** The outside world

    Storage, the table, the two inference services, [uuid] and [json.loads]
    are outside the module.  A run consults a [World], which fixes the
    outcome of every external call, and records the calls it makes as
    [event]s.  [NodeStart] and [NodeDone] mark the beginning and the normal
    end of a graph node. *)

Inductive event : Type :=
| EvOpen (path : string)
| EvPut (local_path : string)
| EvPredict (model : string) (path : pyval)
| EvTableFilter (license_number : string)
| EvTableMerge (record : dict)
| EvInvokeModel (n : nat)
| NodeStart (name : string)
| NodeDone (name : string).

Record World : Type := mkWorld {
  TABLE_NAME : string;
  STAGE_NAME : string;
  LOCAL_PATH : string;
  (** the n-th value of [uuid.uuid4()] as text *)
  uuid4 : nat -> string;
  (** [open(local_path, "wb")] and the write *)
  open_write : string -> exc unit;
  (** [session.file.put(local_path, STAGE_NAME, ...)] *)
  file_put : string -> exc unit;
  (** [json.loads(session.sql(...).collect()[0]["RESULT"])] for the model
      and the staged path *)
  predict : string -> pyval -> exc pyval;
  (** the rows of [session.table(TABLE_NAME).filter(...).collect()], each
      [asDict()] *)
  table_filter : string -> exc (list dict);
  (** [target.merge(...)] *)
  table_merge : dict -> exc unit;
  (** [open(path, "rb")] and the read *)
  open_read : string -> exc string;
  (** [json.loads(response["body"].read())] of the n-th [invoke_model] *)
  invoke_model : nat -> exc pyval;
  (** [json.loads] on a text; [None] is [JSONDecodeError] *)
  json_loads : string -> option pyval
}.

Definition io (A : Type) : Type := (list event * exc A)%type.

Definition io_ret {A : Type} (a : A) : io A := ([], inr a).
Definition io_raise {A : Type} (e : exn) : io A := ([], inl e).
Definition lift {A : Type} (r : exc A) : io A := ([], r).
Definition perform {A : Type} (ev : event) (r : exc A) : io A := ([ev], r).
Definition io_bind {A B : Type} (m : io A) (f : A -> io B) : io B :=
  match m with
  | (t, inl e) => (t, inl e)
  | (t, inr a) => let (t', r) := f a in ((t ++ t')%list, r)
  end.

(** [try: m  except Exception: handler] *)
Definition io_try {A : Type} (m : io A) (handler : exn -> io A) : io A :=
  match m with
  | (t, inl e) => let (t', r) := handler e in ((t ++ t')%list, r)
  | (t, inr a) => (t, inr a)
  end.

Declare Scope io_scope.
Delimit Scope io_scope with io.
Notation "x <~ m ;; k" := (io_bind m (fun x => k))
  (at level 61, m at next level, right associativity) : io_scope.
Open Scope io_scope.

Definition trace {A : Type} (m : io A) : list event := fst m.
Definition outcome {A : Type} (m : io A) : exc A := snd m.

(* ================================================================== *)
(** ** Further Python operations *)

(** [x[k]] for a string key. *)
Definition py_getitem (x : pyval) (k : string) : exc pyval :=
  match x with
  | PDict d => dict_getitem k d
  | _ => raise TypeError
  end.

(** [x[0]] *)
Definition py_index0 (x : pyval) : exc pyval :=
  match x with
  | PList (a :: _) => ret a
  | PList [] => raise IndexError
  | PStr (String c _) => ret (PStr (String c EmptyString))
  | PStr EmptyString => raise IndexError
  | PDict _ => raise (KeyError "0")
  | _ => raise TypeError
  end.

(** [x[k] = v] *)
Definition py_setitem (x : pyval) (k : string) (v : pyval) : exc pyval :=
  match x with
  | PDict d => ret (PDict (dict_set k v d))
  | _ => raise TypeError
  end.

(** [a or b] *)
Definition py_or (a b : pyval) : pyval := if truthy a then a else b.

(** [file.name] and [file.read()] *)
Definition file_name (file : pyval) : exc string :=
  match file with
  | PFile name _ => ret name
  | _ => raise AttributeError
  end.

Definition file_read (file : pyval) : exc string :=
  match file with
  | PFile _ content => ret content
  | _ => raise AttributeError
  end.

Fixpoint ends_with_slash (s : string) : bool :=
  match s with
  | EmptyString => false
  | String c EmptyString => Ascii.eqb c "/"
  | String _ s' => ends_with_slash s'
  end.

(** [os.path.join(a, b)] *)
Definition path_join (a b : string) : string :=
  if String.prefix "/" b then b
  else if String.eqb a "" || ends_with_slash a then a ++ b
  else a ++ "/" ++ b.

(** [path.split(".")[-1]]: the text after the last dot, the whole text when
    there is none. *)
Fixpoint after_last_dot (path : string) : string :=
  match path with
  | EmptyString => EmptyString
  | String c path' =>
      if contains "." path' then after_last_dot path'
      else if Ascii.eqb c "." then path' else path
  end.

(** [re.match(r'^[\w-]+$', x)] as a truth value; a value that is not a [str]
    is refused by [re]. *)
Definition py_re_match_license (x : pyval) : exc bool :=
  match x with
  | PStr s => ret (re_match_license s)
  | _ => raise TypeError
  end.

Definition py_re_search_color (x : pyval) : exc (option string) :=
  match x with
  | PStr s => ret (re_search_color s)
  | _ => raise TypeError
  end.

(** [safe_extract(result.get(key))] *)
Definition extract_field (result : pyval) (key : string) : exc pyval :=
  field <- py_get result key PNone ;; safe_extract field.

(** [body.get("output", {}).get("message", {}).get("content", [{}])[0]
    .get("text", "")] *)
Definition reply_text (body : pyval) : exc pyval :=
  output <- py_get body "output" (PDict []) ;;
  message <- py_get output "message" (PDict []) ;;
  content <- py_get message "content" (PList [PDict []]) ;;
  first <- py_index0 content ;;
  py_get first "text" (PStr "").

(* ================================================================== *)
(** ** Nodes *)

Definition upload_to_stage (w : World) (file : pyval) (filename : string)
  : io (string * string) :=
  let local_path := path_join (LOCAL_PATH w) filename in
  _ <~ perform (EvOpen local_path) (open_write w local_path) ;;
  _ <~ lift (file_read file) ;;
  _ <~ perform (EvPut local_path) (file_put w local_path) ;;
  io_ret (filename, local_path).

(** One of the three uploads of [upload_all]; [n] counts the calls of
    [uuid.uuid4()]. *)
Definition upload_one (w : World) (files : pyval) (key : string) (n : nat)
  : io (string * string) :=
  file <~ lift (py_getitem files key) ;;
  name <~ lift (file_name file) ;;
  upload_to_stage w file (uuid4 w n ++ "_" ++ name).

Definition upload_all (w : World) (state : dict) : io dict :=
  let files := dict_get_default "files" PNone state in
  if negb (truthy files)
  then io_raise (ValueError "Missing 'files' in workflow state.")
  else
    dl <~ upload_one w files "dl" 0 ;;
    claim <~ upload_one w files "claim" 1 ;;
    car <~ upload_one w files "car" 2 ;;
    io_ret [ ("dl_path", PStr (fst dl));
             ("claim_path", PStr (fst claim));
             ("car_path", PStr (fst car));
             ("car_local", PStr (snd car));
             ("steps", PList [PStr "Uploaded"]) ].

(** The lookup of the stored row in [extract_dl], from [if license_number:]
    to the end of its [try]. *)
Definition fetch_table_row (w : World) (license_number : pyval) : io pyval :=
  if truthy license_number then
    ok <~ lift (py_re_match_license license_number) ;;
    if negb ok then io_raise (ValueError "Invalid license number format")
    else
      match license_number with
      | PStr s =>
          io_try
            (table_result <~ perform (EvTableFilter s) (table_filter w s) ;;
             match table_result with
             | row :: _ => io_ret (PDict (normalize_dates row))
             | [] => io_ret PNone
             end)
            (fun _ => io_ret PNone)
      | _ => io_raise TypeError
      end
  else io_ret PNone.

Definition extract_dl (w : World) (state : dict) : io dict :=
  path <~ lift (dict_getitem "dl_path" state) ;;
  result <~ io_try
              (perform (EvPredict "LICENSE_DATA" path)
                 (predict w "LICENSE_DATA" path))
              (fun _ => io_raise
                          (RuntimeError "Failed to run LICENSE_DATA PREDICT")) ;;
  raw_dob <~ lift (extract_field result "dob") ;;
  raw_issue <~ lift (extract_field result "issue_date") ;;
  raw_expiry <~ lift (extract_field result "expiry_date") ;;
  name <~ lift (extract_field result "name") ;;
  license_no <~ lift (extract_field result "license_no") ;;
  address <~ lift (extract_field result "address") ;;
  dob <~ lift (parse_date raw_dob) ;;
  issue <~ lift (parse_date raw_issue) ;;
  expiry <~ lift (parse_date raw_expiry) ;;
  endorsements <~ lift (extract_field result "endorsements") ;;
  sex <~ lift (extract_field result "sex") ;;
  height <~ lift (extract_field result "height") ;;
  let dl_record_full :=
    normalize_dates
      [ ("FULL_NAME", py_or name (PStr "Unknown"));
        ("LICENSE_NUMBER", license_no);
        ("ADDRESS", address);
        ("DATE_OF_BIRTH", dob);
        ("ISSUE_DATE", issue);
        ("EXPIRY_DATE", expiry);
        ("ENDORSEMENTS", py_or endorsements (PStr ""));
        ("SEX", sex);
        ("HEIGHT", height) ] in
  license_number <~ lift (dict_getitem "LICENSE_NUMBER" dl_record_full) ;;
  table_row <~ fetch_table_row w license_number ;;
  stored_number <~ lift (dict_getitem "LICENSE_NUMBER" dl_record_full) ;;
  if negb (truthy stored_number) then
    io_ret [ ("dl", PDict dl_record_full);
             ("table_row", table_row);
             ("steps",
              PList [PStr "DL Extracted (Not Stored: Missing License Number)"]) ]
  else
    _ <~ io_try
           (perform (EvTableMerge dl_record_full)
              (table_merge w dl_record_full))
           (fun _ => io_ret tt) ;;
    io_ret [ ("dl", PDict dl_record_full);
             ("table_row", table_row);
             ("steps", PList [PStr "Driver's License Extracted & Stored"]) ].

(** [for field in ["description", "vehicle"]] of [extract_claim], with its
    [break]. *)
Fixpoint color_loop (fields : list string) (result : pyval)
  : exc pyval :=
  match fields with
  | [] => ret result
  | field :: fields' =>
      entry <- py_get result field (PList [PDict []]) ;;
      first <- py_index0 entry ;;
      text <- py_get first "value" (PStr "") ;;
      found <- py_re_search_color text ;;
      match found with
      | Some g =>
          py_setitem result "car_color"
            (PList [PDict [("value", PStr (strip g))]])
      | None => color_loop fields' result
      end
  end.

Definition extract_claim (w : World) (state : dict) : io dict :=
  path <~ lift (dict_getitem "claim_path" state) ;;
  result <~ perform (EvPredict "CLAIMS_DATA" path)
              (predict w "CLAIMS_DATA" path) ;;
  result' <~ lift (color_loop ["description"; "vehicle"] result) ;;
  io_ret [ ("claim", result'); ("steps", PList [PStr "Claim Extracted"]) ].

Definition get_image_mime (ext : string) : option string :=
  let e := lower ext in
  if String.eqb e "jpg" then Some "image/jpeg"
  else if String.eqb e "jpeg" then Some "image/jpeg"
  else if String.eqb e "png" then Some "image/png"
  else if String.eqb e "gif" then Some "image/gif"
  else if String.eqb e "webp" then Some "image/webp"
  else None.

Definition extract_car (w : World) (state : dict) : io dict :=
  path <~ lift (dict_getitem "car_local" state) ;;
  match path with
  | PStr p =>
      let ext := after_last_dot p in
      match get_image_mime ext with
      | None => io_raise (ValueError "Unsupported image format")
      | Some _ =>
          _ <~ perform (EvOpen p) (open_read w p) ;;
          car_result <~ perform (EvInvokeModel 0) (invoke_model w 0) ;;
          raw_text <~ lift (reply_text car_result) ;;
          match raw_text with
          | PStr t =>
              let car_data :=
                match re_search_braces t with
                | Some g =>
                    match json_loads w g with
                    | Some v => v
                    | None => PDict [("raw_output", raw_text)]
                    end
                | None => PDict [("raw_output", raw_text)]
                end in
              io_ret [ ("car", car_data);
                       ("steps", PList [PStr "Car Analyzed"]) ]
          | _ => io_raise TypeError
          end
      end
  | _ => io_raise AttributeError
  end.

(** The parsing [try] of [compare_and_email]; its bare [except] also takes
    the refusal of a reply that is not a text. *)
Definition parse_comparison (w : World) (raw_text : pyval) : pyval :=
  match raw_text with
  | PStr t =>
      match re_search_braces t with
      | Some g =>
          match json_loads w g with
          | Some v => v
          | None => PDict [("raw_output", raw_text)]
          end
      | None => PDict []
      end
  | _ => PDict [("raw_output", raw_text)]
  end.

(** The two prompts are not modelled: what the model answers is fixed by the
    world, whatever it is asked. *)
Definition compare_and_email (w : World) (state : dict) : io dict :=
  dl <~ lift (dict_getitem "dl" state) ;;
  claim <~ lift (dict_getitem "claim" state) ;;
  car <~ lift (dict_getitem "car" state) ;;
  body <~ perform (EvInvokeModel 1) (invoke_model w 1) ;;
  raw_text <~ lift (reply_text body) ;;
  comparison <~ lift (normalize_comparison (parse_comparison w raw_text)) ;;
  decision <~ lift (decision_of comparison) ;;
  email_body <~ perform (EvInvokeModel 2) (invoke_model w 2) ;;
  email_text <~ lift (reply_text email_body) ;;
  io_ret [ ("comparison", comparison);
           ("decision", PStr decision);
           ("email", email_text);
           ("steps", PList [PStr "Compared & Emailed"]) ].

(* ================================================================== *)
(** ** Graph

    [StateGraph] runs the node of the entry point, merges the dict it returns
    into the state, and follows the outgoing edge until [END]; an exception
    in a node ends [invoke] with that exception.  Keys of [State] are the
    channels: an update to another key is dropped, [steps] is merged with
    [operator.add], and every other channel is overwritten. *)












(* ================================================================== *)
(** ** Vocabulary of the properties *)

(** An item that the loop of [safe_extract] stops at. *)
Definition has_value (item : pyval) : bool :=
  match item with
  | PDict d => dict_mem "value" d
  | _ => false
  end.

(** The verdict with its fixed shape and the ten booleans it holds. *)
Definition verdict_schema
  (name_claim license_claim license_dl address_claim address_dl
   make model color damage validity : bool) : pyval :=
  PDict
    [ ("name", PDict [("claim_table", PBool name_claim)]);
      ("license_no", PDict [("claim_table", PBool license_claim);
                            ("dl_table", PBool license_dl)]);
      ("address", PDict [("claim_table", PBool address_claim);
                         ("dl_table", PBool address_dl)]);
      ("car_make", PDict [("claim_car", PBool make)]);
      ("car_model", PDict [("claim_car", PBool model)]);
      ("car_color", PDict [("claim_car", PBool color)]);
      ("damage_details", PDict [("claim_car", PBool damage)]);
      ("license_validity", PBool validity) ].

(** What the input says about subfield [sub] of [field]: the truth value of
    the entry when the input is a mapping, [field] is a mapping in it and
    [sub] is present there; false in every other case. *)
Definition coerced_sub (data : pyval) (field sub : string) : bool :=
  match data with
  | PDict d =>
      match dict_get field d with
      | Some (PDict fd) =>
          match dict_get sub fd with
          | Some v => truthy v
          | None => false
          end
      | _ => false
      end
  | _ => false
  end.

(** What the input says about the top-level entry [field]. *)
Definition coerced_top (data : pyval) (field : string) : bool :=
  match data with
  | PDict d =>
      match dict_get field d with
      | Some v => truthy v
      | None => false
      end
  | _ => false
  end.

Definition accepted : string := "Claim Accepted".
Definition rejected : string := "Claim Rejected".

(** The only exception of a computation is [ValueError]. *)
Definition only_value_error {A : Type} (m : exc A) : Prop :=
  match m with
  | inl (ValueError _) => True
  | inl _ => False
  | inr _ => True
  end.



(** A field of the claim extraction that the colour loop can read: absent,
    or a non-empty sequence whose first element is a mapping. *)
Definition well_shaped (entry : option pyval) : bool :=
  match entry with
  | None => true
  | Some (PList (PDict _ :: _)) => true
  | _ => false
  end.

(** A bare string, a plain mapping or an empty sequence. *)
Definition malformed (v : pyval) : bool :=
  match v with
  | PStr _ => true
  | PDict _ => true
  | PList [] => true
  | _ => false
  end.

(** The colour that the loop of [extract_claim] reads in [field]. *)
Definition field_color (d : dict) (field : string) : option string :=
  match dict_get field d with
  | Some (PList (PDict e :: _)) =>
      match dict_get_default "value" (PStr "") e with
      | PStr t => re_search_color t
      | _ => None
      end
  | _ => None
  end.

(** A world in which storage and the table accept every call, the license
    extraction answers [license], the claim extraction answers [claim], every
    model call answers with the text [reply], and [json.loads] reads
    [parsed] in it. *)
Definition sample_world (license claim : pyval) (reply : string)
  (parsed : option pyval) : World :=
  {| TABLE_NAME := "DRIVERS_LICENSE";
     STAGE_NAME := "@CLAIMS";
     LOCAL_PATH := "/tmp";
     uuid4 := fun _ => "0f8fad5b";
     open_write := fun _ => ret tt;
     file_put := fun _ => ret tt;
     predict := fun model _ =>
                  if String.eqb model "LICENSE_DATA" then ret license
                  else ret claim;
     table_filter := fun _ => ret [];
     table_merge := fun _ => ret tt;
     open_read := fun _ => ret "";
     invoke_model := fun _ =>
       ret (PDict [("output",
              PDict [("message",
                PDict [("content", PList [PDict [("text", PStr reply)]])])])]);
     json_loads := fun _ => parsed |}.

Definition sample_files : pyval :=
  PDict [ ("dl", PFile "license.png" "");
          ("claim", PFile "claim.pdf" "");
          ("car", PFile "car.jpg" "") ].








(** The text that [isoformat] puts after the year. *)
Definition iso_tail (m d : Z) : string :=
  "-" ++ zero_padded 2 m ++ "-" ++ zero_padded 2 d.

(** The end of an ISO date is read back by the end of ["%Y-%m-%d"] as the
    month [m] and the day [d], and [strip] leaves it alone. *)
Definition iso_tail_parses (m d : Z) : bool :=
  match match_items (format_items "-%m-%d") (iso_tail m d) [] with
  | Some ([(xd, td); (xm, tm)], EmptyString) =>
      Ascii.eqb xd "d" && Ascii.eqb xm "m" &&
      match py_int tm, py_int td with
      | inr vm, inr vd => (vm =? m) && (vd =? d)
      | _, _ => false
      end &&
      String.eqb (rstrip (iso_tail m d)) (iso_tail m d)
  | _ => false
  end.

Definition months : list Z := [1; 2; 3; 4; 5; 6; 7; 8; 9; 10; 11; 12].

Definition days : list Z :=
  [1; 2; 3; 4; 5; 6; 7; 8; 9; 10; 11; 12; 13; 14; 15; 16; 17; 18; 19; 20; 21;
   22; 23; 24; 25; 26; 27; 28; 29; 30; 31].

(** A value that [parse_date] can return: [None] or a calendar date. *)
Definition none_or_valid_date (v : pyval) : Prop :=
  v = PNone \/
  exists dt, v = PDate dt /\ valid_date (year dt) (month dt) (day dt) = true.

(** Every character of the text satisfies [p]. *)
Fixpoint string_forallb (p : ascii -> bool) (s : string) : bool :=
  match s with
  | EmptyString => true
  | String c s' => p c && string_forallb p s'
  end.

(** What [normalize_dates] does to one value. *)
Definition date_to_text (v : pyval) : pyval :=
  match v with
  | PDate d => PStr (isoformat d)
  | _ => v
  end.

Definition is_date (v : pyval) : bool :=
  match v with
  | PDate _ => true
  | _ => false
  end.

(** A run of a computation: every event it records satisfies [P], and what
    it returns satisfies [Q]. *)
Definition traced {A : Type} (P : event -> Prop) (Q : A -> Prop) (m : io A)
  : Prop :=
  Forall P (trace m) /\ forall a, outcome m = inr a -> Q a.

(** A table access is made for a license number that passed the check. *)
Definition table_event_ok (ev : event) : Prop :=
  match ev with
  | EvTableFilter s => re_match_license s = true
  | EvTableMerge record =>
      exists s, dict_get "LICENSE_NUMBER" record = Some (PStr s) /\
                re_match_license s = true
  | _ => True
  end.

(** A date field of the license record: [None] or the ISO text of a
    calendar date. *)
Definition date_field_ok (entry : option pyval) : Prop :=
  entry = Some PNone \/
  exists dt, entry = Some (PStr (isoformat dt)) /\
             valid_date (year dt) (month dt) (day dt) = true.

Definition dl_record_keys : list string :=
  [ "FULL_NAME"; "LICENSE_NUMBER"; "ADDRESS"; "DATE_OF_BIRTH"; "ISSUE_DATE";
    "EXPIRY_DATE"; "ENDORSEMENTS"; "SEX"; "HEIGHT" ].

(** The license record that [extract_dl] returns. *)
Definition dl_record_ok (record : dict) : Prop :=
  dict_keys record = dl_record_keys /\
  (exists v, dict_get "FULL_NAME" record = Some v /\ truthy v = true) /\
  (exists v, dict_get "ENDORSEMENTS" record = Some v /\
             (truthy v = true \/ v = PStr "")) /\
  date_field_ok (dict_get "DATE_OF_BIRTH" record) /\
  date_field_ok (dict_get "ISSUE_DATE" record) /\
  date_field_ok (dict_get "EXPIRY_DATE" record).

(** What [extract_dl] returns: the record, the stored row, and one step that
    says whether a license number was there to store the record under. *)
Definition extract_dl_result_ok (u : dict) : Prop :=
  exists record row step,
    u = [ ("dl", PDict record); ("table_row", row);
          ("steps", PList [PStr step]) ] /\
    dl_record_ok record /\
    ((step = "DL Extracted (Not Stored: Missing License Number)" /\
      row = PNone /\
      exists v, dict_get "LICENSE_NUMBER" record = Some v /\ truthy v = false)
     \/
     (step = "Driver's License Extracted & Stored" /\
      exists s, dict_get "LICENSE_NUMBER" record = Some (PStr s) /\
                re_match_license s = true)).

(** The row that the lookup of [extract_dl] keeps: the first one found, its
    dates as text; none when there is no row or when the lookup fails. *)
Definition fetched_row (w : World) (s : string) : pyval :=
  match table_filter w s with
  | inr (row :: _) => PDict (normalize_dates row)
  | _ => PNone
  end.



(** What [extract_car] makes of a text reply: the embedded object when there
    is one that [json.loads] reads, the reply under ["raw_output"]
    otherwise. *)
Definition car_data_of (w : World) (t : string) : pyval :=
  match re_search_braces t with
  | Some g =>
      match json_loads w g with
      | Some v => v
      | None => PDict [("raw_output", PStr t)]
      end
  | None => PDict [("raw_output", PStr t)]
  end.

(** The text of a date with slashes: two numbers of two digits, then the
    year as given. *)
Definition slash_date (a b : Z) (yr : string) : string :=
  zero_padded 2 a ++ String "/" (zero_padded 2 b ++ String "/" yr).

(* ================================================================== *)
(** * Properties *)

(** ** [safe_extract] *)

Lemma safe_extract_loop_total (items : list pyval) :
  exists o, safe_extract_loop items = ret o.
Proof.
  induction items as [| item rest IH]; simpl.
  - eexists; reflexivity.
  - destruct item; try exact IH.
    unfold dict_mem, dict_getitem.
    destruct (dict_get "value" d) as [v |]; simpl.
    + eexists; reflexivity.
    + exact IH.
Qed.

Lemma safe_extract_loop_none (items : list pyval) :
  forallb (fun x => negb (has_value x)) items = true ->
  safe_extract_loop items = ret None.
Proof.
  induction items as [| item rest IH]; simpl; intro H.
  - reflexivity.
  - apply andb_true_iff in H as [Hi Hr].
    destruct item; simpl in Hi; try (apply IH; exact Hr).
    destruct (dict_mem "value" d); [discriminate Hi | apply IH; exact Hr].
Qed.

Lemma safe_extract_loop_first (pre post : list pyval) (d : dict) (v : pyval) :
  forallb (fun x => negb (has_value x)) pre = true ->
  dict_get "value" d = Some v ->
  safe_extract_loop (pre ++ PDict d :: post) = ret (Some v).
Proof.
  intros Hpre Hv.
  induction pre as [| item rest IH]; simpl.
  - unfold dict_mem, dict_getitem. rewrite Hv. reflexivity.
  - simpl in Hpre. apply andb_true_iff in Hpre as [Hi Hr].
    destruct item; simpl in Hi; try (apply IH; exact Hr).
    destruct (dict_mem "value" d0); [discriminate Hi | apply IH; exact Hr].
Qed.

Lemma safe_extract_total (field : pyval) : exists v, safe_extract field = ret v.
Proof.
  unfold safe_extract.
  destruct (negb (truthy field)) eqn:Ht; [eexists; reflexivity |].
  destruct field; try (eexists; reflexivity).
  destruct (safe_extract_loop_total l) as [o Ho]. rewrite Ho. simpl.
  destruct o as [v |]; [eexists; reflexivity |].
  destruct l as [| x l']; simpl in *; [discriminate Ht | eexists; reflexivity].
Qed.

(** C8, as the code has it: [safe_extract] never raises; a falsy input gives
    [None]; a non-empty mapping gives its ["value"] entry, [None] when it has
    none; a non-empty sequence gives the ["value"] entry of its first element
    that is a mapping with that key, and its first element when there is no
    such mapping; any other value is returned unchanged. *)
Theorem safe_extract_shapes (field : pyval) :
  (exists v, safe_extract field = ret v) /\
  (truthy field = false -> safe_extract field = ret PNone) /\
  (forall d, field = PDict d -> d <> [] ->
     safe_extract field = ret (dict_get_default "value" PNone d)) /\
  (forall pre d post v, field = PList (pre ++ PDict d :: post) ->
     forallb (fun x => negb (has_value x)) pre = true ->
     dict_get "value" d = Some v ->
     safe_extract field = ret v) /\
  (forall x l, field = PList (x :: l) ->
     forallb (fun y => negb (has_value y)) (x :: l) = true ->
     safe_extract field = ret x) /\
  (truthy field = true -> isinstance_list field = false ->
   isinstance_dict field = false -> safe_extract field = ret field).
Proof.
  split; [apply safe_extract_total |].
  split; [intro H; unfold safe_extract; rewrite H; reflexivity |].
  split.
  { intros d -> Hd. unfold safe_extract.
    destruct d; [contradiction Hd; reflexivity | reflexivity]. }
  split.
  { intros pre d post v -> Hpre Hv. unfold safe_extract.
    assert (Ht : truthy (PList (pre ++ PDict d :: post)) = true)
      by (destruct pre; reflexivity).
    rewrite Ht. simpl negb. cbv iota.
    rewrite (safe_extract_loop_first pre post d Hpre Hv). reflexivity. }
  split.
  { intros x l -> Hall. unfold safe_extract. simpl truthy. simpl negb. cbv iota.
    rewrite (safe_extract_loop_none (x :: l) Hall). reflexivity. }
  intros Ht Hl Hd. unfold safe_extract. rewrite Ht. simpl.
  destruct field; try reflexivity; discriminate.
Qed.

Lemma safe_extract_shapes_witness :
  safe_extract (PDict [("confidence", PInt 1)]) = ret PNone /\
  safe_extract (PList [PInt 5; PDict [("value", PStr "B1")]]) = ret (PStr "B1") /\
  safe_extract (PList [PStr "a"; PStr "b"]) = ret (PStr "a") /\
  safe_extract (PInt 0) = ret PNone /\
  safe_extract (PStr "x") = ret (PStr "x").
Proof.
  split.
  { apply (proj1 (proj2 (proj2
      (safe_extract_shapes (PDict [("confidence", PInt 1)]))))
      [("confidence", PInt 1)] eq_refl). discriminate. }
  split.
  { apply (proj1 (proj2 (proj2 (proj2
      (safe_extract_shapes (PList [PInt 5; PDict [("value", PStr "B1")]])))))
      [PInt 5] [("value", PStr "B1")] [] (PStr "B1") eq_refl);
      reflexivity. }
  split.
  { apply (proj1 (proj2 (proj2 (proj2 (proj2
      (safe_extract_shapes (PList [PStr "a"; PStr "b"]))))))
      (PStr "a") [PStr "b"] eq_refl). reflexivity. }
  split.
  { apply (proj1 (proj2 (safe_extract_shapes (PInt 0)))). reflexivity. }
  apply (proj2 (proj2 (proj2 (proj2 (proj2
    (safe_extract_shapes (PStr "x"))))))); reflexivity.
Defined.

(** C8 as stated fails: a mapping without a ["value"] key is not returned
    unchanged, and neither is a sequence without such a mapping. *)
Lemma safe_extract_not_raw_input :
  safe_extract (PDict [("confidence", PInt 1)])
    <> ret (PDict [("confidence", PInt 1)]) /\
  safe_extract (PList [PStr "a"; PStr "b"])
    <> ret (PList [PStr "a"; PStr "b"]).
Proof. split; simpl; discriminate. Qed.

(** ** [normalize_comparison] *)

Lemma normalized_sub_flag (d : dict) (field sub : string) :
  truthy (dict_get_default sub (PBool false)
            match dict_get_default field (PDict []) d with
            | PDict fd => fd
            | _ => []
            end)
  = coerced_sub (PDict d) field sub.
Proof.
  unfold coerced_sub, dict_get_default.
  destruct (dict_get field d) as [v |]; [| reflexivity].
  destruct v; try reflexivity.
  destruct (dict_get sub d0); reflexivity.
Qed.

Lemma normalized_top_flag (d : dict) (field : string) :
  truthy (dict_get_default field (PBool false) d) = coerced_top (PDict d) field.
Proof.
  unfold coerced_top, dict_get_default.
  destruct (dict_get field d); reflexivity.
Qed.

Lemma normalize_comparison_schema (data : pyval) :
  normalize_comparison data =
  ret (verdict_schema
         (coerced_sub data "name" "claim_table")
         (coerced_sub data "license_no" "claim_table")
         (coerced_sub data "license_no" "dl_table")
         (coerced_sub data "address" "claim_table")
         (coerced_sub data "address" "dl_table")
         (coerced_sub data "car_make" "claim_car")
         (coerced_sub data "car_model" "claim_car")
         (coerced_sub data "car_color" "claim_car")
         (coerced_sub data "damage_details" "claim_car")
         (coerced_top data "license_validity")).
Proof.
  destruct data; try reflexivity.
  unfold normalize_comparison, normalized_default, verdict_schema.
  cbn -[coerced_sub coerced_top truthy dict_get_default].
  rewrite !normalized_sub_flag, normalized_top_flag.
  reflexivity.
Qed.

(** C5, as the code has it: for every input [normalize_comparison] returns
    the full verdict schema without raising.  In each of the seven fields
    with subfields, an entry is true only when the input is a mapping, the
    field is a mapping in it, and the subfield is present with a true truth
    value: an absent field or subfield and a field that is not a mapping
    give false, an explicit boolean is kept, and a present value that is not
    a boolean counts by its truth value.  [license_validity] is false when
    the input is not a mapping or has no such entry, and an entry that is
    not itself a mapping is coerced with [bool], so an explicit boolean is
    kept; nothing is said here of an entry that is a mapping. *)
Theorem normalize_comparison_total_schema (data : pyval) :
  (exists validity,
     normalize_comparison data =
     ret (verdict_schema
            (coerced_sub data "name" "claim_table")
            (coerced_sub data "license_no" "claim_table")
            (coerced_sub data "license_no" "dl_table")
            (coerced_sub data "address" "claim_table")
            (coerced_sub data "address" "dl_table")
            (coerced_sub data "car_make" "claim_car")
            (coerced_sub data "car_model" "claim_car")
            (coerced_sub data "car_color" "claim_car")
            (coerced_sub data "damage_details" "claim_car")
            validity) /\
     (isinstance_dict data = false -> validity = false) /\
     (forall d, data = PDict d -> dict_get "license_validity" d = None ->
        validity = false) /\
     (forall d v, data = PDict d -> dict_get "license_validity" d = Some v ->
        isinstance_dict v = false -> validity = truthy v)) /\
  (forall field sub,
     coerced_sub data field sub = true ->
     exists d fd v, data = PDict d /\ dict_get field d = Some (PDict fd) /\
                    dict_get sub fd = Some v /\ truthy v = true) /\
  (forall d field fd sub b,
     data = PDict d -> dict_get field d = Some (PDict fd) ->
     dict_get sub fd = Some (PBool b) -> coerced_sub data field sub = b).
Proof.
  split; [| split].
  - exists (coerced_top data "license_validity").
    split; [exact (normalize_comparison_schema data) |].
    split; [| split].
    + intro H. destruct data; try reflexivity. discriminate H.
    + intros d -> H. unfold coerced_top. rewrite H. reflexivity.
    + intros d v -> H _. unfold coerced_top. rewrite H. reflexivity.
  - intros field sub H. unfold coerced_sub in H.
    destruct data; try discriminate H.
    destruct (dict_get field d) as [v |] eqn:Hf; [| discriminate H].
    destruct v; try discriminate H.
    destruct (dict_get sub d0) as [v |] eqn:Hs; [| discriminate H].
    exists d, d0, v. repeat split; assumption.
  - intros d field fd sub b -> Hf Hs. unfold coerced_sub.
    rewrite Hf, Hs. reflexivity.
Qed.

Lemma normalize_comparison_total_schema_witness :
  (exists validity,
     normalize_comparison
       (PDict [ ("name", PDict [("claim_table", PBool true)]);
                ("license_validity", PBool true) ])
     = ret (verdict_schema true false false false false false false false
              false validity) /\
     validity = true) /\
  coerced_sub
    (PDict [ ("name", PDict [("claim_table", PBool true)]);
             ("license_validity", PBool true) ])
    "name" "claim_table" = true.
Proof.
  split.
  - destruct (proj1 (normalize_comparison_total_schema
                       (PDict [ ("name", PDict [("claim_table", PBool true)]);
                                ("license_validity", PBool true) ])))
      as (validity & Hn & _ & _ & Hv).
    exists validity. split; [exact Hn |].
    exact (Hv _ _ eq_refl eq_refl eq_refl).
  - apply (proj2 (proj2 (normalize_comparison_total_schema
             (PDict [ ("name", PDict [("claim_table", PBool true)]);
                      ("license_validity", PBool true) ])))
             [ ("name", PDict [("claim_table", PBool true)]);
               ("license_validity", PBool true) ] "name"
             [("claim_table", PBool true)] "claim_table" true);
      reflexivity.
Defined.

(** C5 as stated fails: a subfield that is present but not a boolean does not
    default to false. *)
Lemma normalize_comparison_non_boolean_true :
  normalize_comparison (PDict [("name", PDict [("claim_table", PStr "no")])])
  = ret (verdict_schema true false false false false false false false false
           false).
Proof. reflexivity. Qed.

(** ** The decision *)

Lemma decision_of_schema (b1 b2 b3 b4 b5 b6 b7 b8 b9 v : bool) :
  decision_of (verdict_schema b1 b2 b3 b4 b5 b6 b7 b8 b9 v)
  = ret (if v then accepted else rejected).
Proof.
  unfold decision_of, all_match_of, verdict_schema.
  cbn. reflexivity.
Qed.

(** C2: after normalization the decision is "Claim Accepted" exactly when the
    normalized [license_validity] is true; the other seven fields of the
    verdict do not enter the decision. *)
Theorem decision_is_license_validity (data : pyval) :
  exists n validity,
    normalize_comparison data = ret n /\
    py_get n "license_validity" (PDict []) = ret (PBool validity) /\
    decision_of n = ret (if validity then accepted else rejected) /\
    (decision_of n = ret accepted <-> validity = true).
Proof.
  eexists. exists (coerced_top data "license_validity").
  split; [apply normalize_comparison_schema |].
  split; [reflexivity |].
  rewrite decision_of_schema.
  split; [reflexivity |].
  destruct (coerced_top data "license_validity"); split; intro H;
    try reflexivity; discriminate H.
Qed.

(** C1 does not hold of the code: with [name.claim_table] false and the other
    seven checks true, the verdict is still accepted. *)
Theorem decision_accepts_failed_check :
  exists n,
    normalize_comparison
      (verdict_schema false true true true true true true true true true)
    = ret n /\
    n = verdict_schema false true true true true true true true true true /\
    decision_of n = ret accepted.
Proof. eexists. repeat split. Qed.

(** C4 does not hold of the code: [license_validity] given as
    [{"value": false}] is normalized to true, and the claim is accepted. *)
Theorem nested_license_validity_is_true :
  exists n,
    normalize_comparison
      (PDict [("license_validity", PDict [("value", PBool false)])])
    = ret n /\
    py_get n "license_validity" (PDict []) = ret (PBool true) /\
    decision_of n = ret accepted.
Proof. eexists. repeat split. Qed.

(** ** [parse_date] *)

Lemma only_value_error_bind {A B : Type} (m : exc A) (f : A -> exc B) :
  only_value_error m -> (forall a, only_value_error (f a)) ->
  only_value_error (bind m f).
Proof.
  destruct m as [e | a]; simpl; intros Hm Hf; [exact Hm | apply Hf].
Qed.

Lemma digits_value_only_value_error (s : string) (acc : Z) :
  only_value_error (digits_value s acc).
Proof.
  revert acc. induction s as [| c s' IH]; intro acc; simpl.
  - exact I.
  - destruct (is_digit c); [apply IH | exact I].
Qed.

Lemma py_int_only_value_error (s : string) : only_value_error (py_int s).
Proof.
  unfold py_int. destruct (strip s) eqn:E.
  - exact I.
  - apply digits_value_only_value_error.
Qed.

Lemma make_date_only_value_error (y m d : Z) : only_value_error (make_date y m d).
Proof. unfold make_date. destruct (valid_date y m d); exact I. Qed.

Lemma group_int_only_value_error (x : ascii) (default : Z) (found : groups) :
  only_value_error (group_int x default found).
Proof.
  unfold group_int. destruct (group x found).
  - apply py_int_only_value_error.
  - exact I.
Qed.

Lemma strptime_only_value_error (data_string format : string) :
  only_value_error (strptime data_string format).
Proof.
  unfold strptime.
  destruct (match_items (format_items format) data_string []) as [[found rest] |];
    [| exact I].
  destruct (negb (rest =? ""))%string; [exact I |].
  apply only_value_error_bind; [apply group_int_only_value_error | intro y4].
  apply only_value_error_bind.
  { destruct (group "y" found); [| exact I].
    apply only_value_error_bind; [apply py_int_only_value_error | intro; exact I]. }
  intro y.
  apply only_value_error_bind; [apply group_int_only_value_error | intro m].
  apply only_value_error_bind; [apply group_int_only_value_error | intro d].
  apply make_date_only_value_error.
Qed.

Lemma try_format_only_value_error (value fmt : string) :
  only_value_error (try_format value fmt).
Proof.
  unfold try_format.
  apply only_value_error_bind; [apply strptime_only_value_error | intro dt].
  destruct (contains "%y" fmt && (year dt <? 1930)); [| exact I].
  apply make_date_only_value_error.
Qed.

(** The loop of [parse_date] takes the first format that parses. *)
Lemma parse_date_loop_cons (value fmt : string) (fmts : list string) :
  parse_date_loop value (fmt :: fmts) =
  match try_format value fmt with
  | inr dt => ret (PDate dt)
  | inl _ => parse_date_loop value fmts
  end.
Proof.
  simpl. pose proof (try_format_only_value_error value fmt) as H.
  destruct (try_format value fmt) as [e | dt]; [| reflexivity].
  destruct e; simpl in H; try contradiction. reflexivity.
Qed.

Lemma parse_date_loop_total (value : string) (fmts : list string) :
  exists r, parse_date_loop value fmts = ret r.
Proof.
  induction fmts as [| fmt fmts IH].
  - eexists; reflexivity.
  - rewrite parse_date_loop_cons.
    destruct (try_format value fmt); [exact IH | eexists; reflexivity].
Qed.

Lemma parse_date_total (value : pyval) : exists r, parse_date value = ret r.
Proof.
  unfold parse_date.
  destruct (negb (truthy value) || negb (isinstance_str value)) eqn:E;
    [eexists; reflexivity |].
  destruct value; simpl in E; try discriminate E;
    try (rewrite orb_true_r in E; discriminate E).
  apply parse_date_loop_total.
Qed.

(** C7: [parse_date] never raises, and on a non-empty text it tries the five
    formats in the order day/month/4-digit year, day/month/2-digit year,
    month/day/4-digit year, month/day/2-digit year, ISO, and answers with the
    first that parses, [None] when none does; ["03/04/05"] is the third of
    April 2005. *)
Theorem parse_date_format_priority (value : pyval) :
  (exists r, parse_date value = ret r) /\
  (forall s, value = PStr s -> s <> "" ->
     parse_date value =
     ret match try_format (strip s) "%d/%m/%Y" with
         | inr dt => PDate dt
         | inl _ =>
         match try_format (strip s) "%d/%m/%y" with
         | inr dt => PDate dt
         | inl _ =>
         match try_format (strip s) "%m/%d/%Y" with
         | inr dt => PDate dt
         | inl _ =>
         match try_format (strip s) "%m/%d/%y" with
         | inr dt => PDate dt
         | inl _ =>
         match try_format (strip s) "%Y-%m-%d" with
         | inr dt => PDate dt
         | inl _ => PNone
         end end end end end) /\
  parse_date (PStr "03/04/05") = ret (PDate (mkdate 2005 4 3)).
Proof.
  split; [apply parse_date_total |].
  split; [| reflexivity].
  intros s -> Hs. unfold parse_date.
  assert (Ht : truthy (PStr s) = true).
  { simpl. destruct s; [contradiction Hs; reflexivity | reflexivity]. }
  rewrite Ht. simpl negb. simpl orb. cbv iota.
  unfold formats. rewrite !parse_date_loop_cons.
  destruct (try_format (strip s) "%d/%m/%Y"); [| reflexivity].
  destruct (try_format (strip s) "%d/%m/%y"); [| reflexivity].
  destruct (try_format (strip s) "%m/%d/%Y"); [| reflexivity].
  destruct (try_format (strip s) "%m/%d/%y"); [| reflexivity].
  destruct (try_format (strip s) "%Y-%m-%d"); reflexivity.
Qed.

Lemma parse_date_format_priority_witness :
  parse_date (PStr "04/13/1995") = ret (PDate (mkdate 1995 4 13)).
Proof.
  rewrite (proj1 (proj2 (parse_date_format_priority (PStr "04/13/1995")))
             "04/13/1995" eq_refl).
  - reflexivity.
  - discriminate.
Defined.

(** Why the century fix of [parse_date] never applies: a format with [%y]
    always yields a year from 1969 on. *)
Lemma first_alternative_inv {A : Type} (alts : list (list cclass)) (s : string)
  (k : string -> string -> option A) (r : A) :
  first_alternative alts s k = Some r ->
  exists tok rest, k tok rest = Some r.
Proof.
  induction alts as [| a alts' IH]; simpl; intro H.
  - discriminate H.
  - destruct (match_classes a s) as [[tok rest] |]; [| exact (IH H)].
    destruct (k tok rest) eqn:E; [| exact (IH H)].
    exists tok, rest. rewrite E. exact H.
Qed.

Lemma match_items_keeps_groups (items : list item) (x : ascii) :
  forall s found found' rest,
    match_items items s found = Some (found', rest) ->
    In (Dir x) items \/ group x found <> None ->
    group x found' <> None.
Proof.
  induction items as [| it items' IH]; intros s found found' rest H Hx.
  - simpl in H. injection H as <- _.
    destruct Hx as [[] | Hx]; exact Hx.
  - destruct it as [c | y]; simpl in H.
    + destruct s as [| c' s']; [discriminate H |].
      destruct (Ascii.eqb c c'); [| discriminate H].
      apply (IH _ _ _ _ H).
      destruct Hx as [[E | Hin] | Hx]; [discriminate E | left; exact Hin
                                       | right; exact Hx].
    + apply first_alternative_inv in H as (tok & rest0 & H).
      apply (IH _ _ _ _ H). simpl.
      destruct (Ascii.eqb x y) eqn:E.
      * right. discriminate.
      * destruct Hx as [[E' | Hin] | Hx].
        -- injection E' as ->. rewrite Ascii.eqb_refl in E. discriminate E.
        -- left. exact Hin.
        -- right. exact Hx.
Qed.

Lemma digits_value_nonneg (s : string) (acc n : Z) :
  0 <= acc -> digits_value s acc = ret n -> 0 <= n.
Proof.
  revert acc. induction s as [| c s' IH]; intros acc Hacc H; simpl in H.
  - injection H as <-. exact Hacc.
  - destruct (is_digit c); [| discriminate H].
    apply (IH (10 * acc + Z.of_N (code c - 48))); [lia | exact H].
Qed.

Lemma py_int_nonneg (s : string) (n : Z) : py_int s = ret n -> 0 <= n.
Proof.
  unfold py_int. destruct (strip s); [discriminate |].
  apply digits_value_nonneg. lia.
Qed.

Lemma make_date_year (y m d : Z) (dt : date) :
  make_date y m d = ret dt -> year dt = y.
Proof.
  unfold make_date. destruct (valid_date y m d); [| discriminate].
  intro H. injection H as <-. reflexivity.
Qed.

Lemma strptime_two_digit_year (value fmt : string) (dt : date) :
  In (Dir "y"%char) (format_items fmt) ->
  strptime value fmt = ret dt -> 1969 <= year dt.
Proof.
  intros Hin. unfold strptime.
  destruct (match_items (format_items fmt) value []) as [[found rest] |] eqn:E;
    [| discriminate].
  destruct (negb (rest =? ""))%string; [discriminate |].
  pose proof (match_items_keeps_groups _ "y"%char _ _ E (or_introl Hin)) as Hy.
  destruct (group_int "Y" 1900 found) as [e | y4]; [discriminate |]. simpl.
  destruct (group "y" found) as [tok |]; [| contradiction Hy; reflexivity].
  destruct (py_int tok) as [e | yy] eqn:Eyy; [discriminate |]. simpl.
  apply py_int_nonneg in Eyy.
  destruct (group_int "m" 1 found) as [e | m]; [discriminate |]. simpl.
  destruct (group_int "d" 1 found) as [e | d]; [discriminate |]. simpl.
  intro H. apply make_date_year in H. rewrite H.
  destruct (yy <=? 68) eqn:Ec; [lia |].
  apply Z.leb_gt in Ec. lia.
Qed.

Lemma century_fix_never_applies (value : string) (dt : date) :
  (strptime value "%d/%m/%y" = ret dt -> (year dt <? 1930) = false) /\
  (strptime value "%m/%d/%y" = ret dt -> (year dt <? 1930) = false).
Proof.
  split; intro H; apply Z.ltb_ge;
    (apply (@strptime_two_digit_year value _ dt) in H;
       [lia | simpl; tauto]).
Qed.

(** C6 does not hold of the code: a two-digit year from 30 to 68 is placed in
    the 2000s, here 35 in 2035, while 05 gives 2005 and 95 gives 1995. *)
Theorem parse_date_two_digit_year_35 :
  parse_date (PStr "01/01/35") = ret (PDate (mkdate 2035 1 1)) /\
  parse_date (PStr "01/01/05") = ret (PDate (mkdate 2005 1 1)) /\
  parse_date (PStr "01/01/95") = ret (PDate (mkdate 1995 1 1)).
Proof. repeat split. Qed.

(** ** The io monad *)

Lemma io_bind_lift_ret {A B : Type} (a : A) (f : A -> io B) :
  io_bind (lift (ret a)) f = f a.
Proof. unfold io_bind, lift, ret. destruct (f a). reflexivity. Qed.

Lemma io_bind_perform_ret {A B : Type} (ev : event) (a : A) (f : A -> io B) :
  io_bind (perform ev (ret a)) f = (ev :: trace (f a), outcome (f a)).
Proof. unfold io_bind, perform, ret, trace, outcome. destruct (f a). reflexivity. Qed.

(** ** [extract_dl] *)

Lemma extract_field_total (d : dict) (key : string) :
  exists v, extract_field (PDict d) key = ret v.
Proof. unfold extract_field. simpl. apply safe_extract_total. Qed.



(** A newline that ends the text is let through by [$]. *)
Example re_match_license_final_newline :
  re_match_license ("AB12" ++ String newline "") = true.
Proof. reflexivity. Qed.






(** ** [extract_claim] *)

Lemma extract_claim_outcome (w : World) (state : dict) (path : pyval) (d : dict) :
  dict_get "claim_path" state = Some path ->
  predict w "CLAIMS_DATA" path = ret (PDict d) ->
  outcome (extract_claim w state) =
  match color_loop ["description"; "vehicle"] (PDict d) with
  | inl e => inl e
  | inr r => inr [("claim", r); ("steps", PList [PStr "Claim Extracted"])]
  end.
Proof.
  intros Hpath Hpredict.
  unfold extract_claim, dict_getitem. rewrite Hpath, io_bind_lift_ret, Hpredict.
  rewrite io_bind_perform_ret. cbv beta.
  destruct (color_loop ["description"; "vehicle"] (PDict d)); reflexivity.
Qed.

(** One pass of the colour loop over [field], when it does not raise: the
    colour it found, if any. *)
Lemma color_loop_cons (d : dict) (field : string) (fields : list string) :
  color_loop (field :: fields) (PDict d) =
  match dict_get field d with
  | None => color_loop fields (PDict d)
  | Some (PList (PDict e :: _)) =>
      match dict_get_default "value" (PStr "") e with
      | PStr t =>
          match re_search_color t with
          | Some g =>
              ret (PDict (dict_set "car_color"
                     (PList [PDict [("value", PStr (strip g))]]) d))
          | None => color_loop fields (PDict d)
          end
      | _ => raise TypeError
      end
  | Some (PList []) => raise IndexError
  | Some (PStr EmptyString) => raise IndexError
  | Some (PStr _) => raise AttributeError
  | Some (PDict _) => raise (KeyError "0")
  | Some (PList _) => raise AttributeError
  | Some _ => raise TypeError
  end.
Proof.
  simpl. unfold dict_get_default at 1.
  destruct (dict_get field d) as [v |]; [| reflexivity].
  destruct v as [| | | | s | | | l | e]; try reflexivity.
  - destruct s; reflexivity.
  - destruct l as [| x l']; [reflexivity |].
    destruct x; try reflexivity. simpl.
    destruct (dict_get_default "value" (PStr "") d0); reflexivity.
Qed.

(** C10, as the code has it: [extract_claim] returns only when the
    description field is absent or a non-empty sequence that starts with a
    mapping and, unless a colour was found in the description (the loop stops
    there), the vehicle field is so too; it raises when the description, or
    the vehicle field once the description gave no colour, is a bare string,
    a plain mapping or an empty sequence. *)
Theorem extract_claim_field_shapes
  (w : World) (state : dict) (path : pyval) (d : dict) :
  dict_get "claim_path" state = Some path ->
  predict w "CLAIMS_DATA" path = ret (PDict d) ->
  (raises (outcome (extract_claim w state)) = false ->
     well_shaped (dict_get "description" d) = true /\
     (field_color d "description" = None ->
      well_shaped (dict_get "vehicle" d) = true)) /\
  (forall v, dict_get "description" d = Some v -> malformed v = true ->
     raises (outcome (extract_claim w state)) = true) /\
  (forall v, field_color d "description" = None ->
     dict_get "vehicle" d = Some v -> malformed v = true ->
     raises (outcome (extract_claim w state)) = true).
Proof.
  intros Hpath Hpredict.
  rewrite (extract_claim_outcome w state Hpath Hpredict).
  rewrite !color_loop_cons. unfold field_color.
  repeat split.
  - destruct (dict_get "description" d) as [v |]; [| reflexivity].
    destruct v as [| | | | s | | | l | e]; try discriminate.
    + destruct s; discriminate.
    + destruct l as [| x l']; [discriminate |].
      destruct x; try discriminate. reflexivity.
  - intro Hcolor. revert H.
    destruct (dict_get "description" d) as [v |].
    + destruct v as [| | | | s | | | l | e]; try discriminate.
      * destruct s; discriminate.
      * destruct l as [| x l']; [discriminate |].
        destruct x; try discriminate.
        destruct (dict_get_default "value" (PStr "") d0); try discriminate.
        rewrite Hcolor.
        destruct (dict_get "vehicle" d) as [v |]; [| reflexivity].
        destruct v as [| | | | s' | | | l | e]; try discriminate.
        -- destruct s'; discriminate.
        -- destruct l as [| x l'']; [discriminate |].
           destruct x; try discriminate. reflexivity.
    + destruct (dict_get "vehicle" d) as [v |]; [| reflexivity].
      destruct v as [| | | | s' | | | l | e]; try discriminate.
      * destruct s'; discriminate.
      * destruct l as [| x l'']; [discriminate |].
        destruct x; try discriminate. reflexivity.
  - intros v Hv Hm. rewrite Hv.
    destruct v as [| | | | s | | | l | e]; try discriminate Hm.
    + destruct s; reflexivity.
    + destruct l; [reflexivity | discriminate Hm].
    + reflexivity.
  - intros v Hcolor Hv Hm. rewrite Hv.
    assert (Hvehicle :
      raises match
        match v with
        | PList (PDict e :: _) =>
            match dict_get_default "value" (PStr "") e with
            | PStr t =>
                match re_search_color t with
                | Some g =>
                    ret (PDict (dict_set "car_color"
                           (PList [PDict [("value", PStr (strip g))]]) d))
                | None => color_loop [] (PDict d)
                end
            | _ => raise TypeError
            end
        | PList [] => raise IndexError
        | PStr EmptyString => raise IndexError
        | PStr _ => raise AttributeError
        | PDict _ => raise (KeyError "0")
        | PList _ => raise AttributeError
        | _ => raise TypeError
        end
      with
      | inl e => inl e
      | inr r => inr [("claim", r); ("steps", PList [PStr "Claim Extracted"])]
      end = true).
    { destruct v as [| | | | s | | | l | e]; try discriminate Hm.
      - destruct s; reflexivity.
      - destruct l; [reflexivity | discriminate Hm].
      - reflexivity. }
    destruct (dict_get "description" d) as [u |]; [| exact Hvehicle].
    destruct u as [| | | | s | | | l | e]; try reflexivity.
    + destruct s; reflexivity.
    + destruct l as [| x l']; [reflexivity |].
      destruct x; try reflexivity.
      destruct (dict_get_default "value" (PStr "") d0); try reflexivity.
      rewrite Hcolor. exact Hvehicle.
Qed.

Lemma extract_claim_field_shapes_witness :
  raises (outcome (extract_claim
            (sample_world PNone
               (PDict [("description", PStr "scratch on the door")]) "" None)
            [("claim_path", PStr "claim.pdf")])) = true.
Proof.
  apply (proj1 (proj2
    (@extract_claim_field_shapes
       (sample_world PNone
          (PDict [("description", PStr "scratch on the door")]) "" None)
       [("claim_path", PStr "claim.pdf")] (PStr "claim.pdf")
       [("description", PStr "scratch on the door")] eq_refl eq_refl))
    (PStr "scratch on the door")); reflexivity.
Defined.

(** C10 as stated fails: once the description gave a colour, the run of
    [extract_claim] ends well although the vehicle field is a bare string. *)
Lemma extract_claim_returns_with_bare_vehicle :
  raises (outcome (extract_claim
            (sample_world PNone
               (PDict [ ("description",
                         PList [PDict [("value", PStr "Color: red")]]);
                        ("vehicle", PStr "sedan") ]) "" None)
            [("claim_path", PStr "claim.pdf")])) = false /\
  well_shaped (Some (PStr "sedan")) = false.
Proof. split; reflexivity. Qed.

(** ** Node bodies *)
















(** ** The graph *)





(** * Further properties *)

(** ** Digits *)

Lemma code_digit_char (z : Z) : code (digit_char z) = (48 + Z.to_N (z mod 10))%N.
Proof.
  unfold code, digit_char. apply N_ascii_embedding.
  assert (0 <= z mod 10 < 10) by (apply Z.mod_pos_bound; lia). lia.
Qed.

Lemma is_digit_digit_char (z : Z) : is_digit (digit_char z) = true.
Proof.
  unfold is_digit. rewrite code_digit_char.
  assert (0 <= z mod 10 < 10) by (apply Z.mod_pos_bound; lia).
  apply andb_true_iff. split; apply N.leb_le; lia.
Qed.

Lemma digit_value_digit_char (z : Z) :
  Z.of_N (code (digit_char z) - 48) = z mod 10.
Proof.
  rewrite code_digit_char.
  assert (0 <= z mod 10 < 10) by (apply Z.mod_pos_bound; lia). lia.
Qed.

Lemma is_digit_not_space (c : ascii) : is_digit c = true -> is_space c = false.
Proof.
  unfold is_digit, is_space. intro H.
  apply andb_true_iff in H as [H1 H2].
  apply N.leb_le in H1. apply N.leb_le in H2.
  repeat (apply orb_false_iff; split);
    try (apply andb_false_iff; (left; apply N.leb_gt; lia) || (right; apply N.leb_gt; lia));
    apply N.eqb_neq; lia.
Qed.

Lemma is_digit_not_slash (c : ascii) :
  is_digit c = true -> Ascii.eqb "/" c = false.
Proof.
  intro H. apply Ascii.eqb_neq. intros <-. discriminate H.
Qed.

Lemma zero_padded_4 (y : Z) :
  zero_padded 4 y =
  String (digit_char (y / 10 / 10 / 10))
    (String (digit_char (y / 10 / 10))
       (String (digit_char (y / 10)) (String (digit_char y) EmptyString))).
Proof. reflexivity. Qed.

Lemma py_int_zero_padded_4 (y : Z) :
  0 <= y <= 9999 -> py_int (zero_padded 4 y) = ret y.
Proof.
  intro Hy. rewrite zero_padded_4. unfold py_int, strip.
  cbn [lstrip]. rewrite (is_digit_not_space _ (is_digit_digit_char _)).
  cbn [rstrip].
  rewrite !(is_digit_not_space _ (is_digit_digit_char _)).
  cbn [digits_value]. rewrite !is_digit_digit_char, !digit_value_digit_char.
  unfold ret. f_equal. Z.div_mod_to_equations. lia.
Qed.

(** ** Reading back an ISO date *)

(** The groups found earlier do not influence a match: they are carried
    along. *)
Lemma first_alternative_carry (alts : list (list cclass)) (s : string)
  (x : ascii) (found : groups) (base : string -> option (groups * string)) :
  first_alternative alts s
    (fun tok rest =>
       match base rest with
       | Some (g, r) => Some ((g ++ (x, tok) :: found)%list, r)
       | None => None
       end)
  = match
      first_alternative alts s
        (fun tok rest =>
           match base rest with
           | Some (g, r) => Some ((g ++ [(x, tok)])%list, r)
           | None => None
           end)
    with
    | Some (g, r) => Some ((g ++ found)%list, r)
    | None => None
    end.
Proof.
  induction alts as [| a alts' IH]; simpl; [reflexivity |].
  destruct (match_classes a s) as [[tok rest] |]; [| exact IH].
  destruct (base rest) as [[g r] |]; [| exact IH].
  rewrite <- app_assoc. reflexivity.
Qed.

Lemma first_alternative_ext {A : Type} (alts : list (list cclass)) (s : string)
  (k k' : string -> string -> option A) :
  (forall tok rest, k tok rest = k' tok rest) ->
  first_alternative alts s k = first_alternative alts s k'.
Proof.
  intro H. induction alts as [| a alts' IH]; simpl; [reflexivity |].
  destruct (match_classes a s) as [[tok rest] |]; [| exact IH].
  rewrite H, IH. reflexivity.
Qed.

Lemma match_items_carry (items : list item) :
  forall s found,
    match_items items s found =
    match match_items items s [] with
    | Some (g, r) => Some ((g ++ found)%list, r)
    | None => None
    end.
Proof.
  induction items as [| it items' IH]; intros s found.
  - reflexivity.
  - destruct it as [c | x]; simpl.
    + destruct s as [| c' s']; [reflexivity |].
      destruct (Ascii.eqb c c'); [apply IH | reflexivity].
    + rewrite (first_alternative_ext _ _
                 (fun tok rest => match_items items' rest ((x, tok) :: found))
                 (fun tok rest =>
                    match match_items items' rest [] with
                    | Some (g, r) => Some ((g ++ (x, tok) :: found)%list, r)
                    | None => None
                    end)) by (intros; apply IH).
      rewrite (first_alternative_ext _ _
                 (fun tok rest => match_items items' rest [(x, tok)])
                 (fun tok rest =>
                    match match_items items' rest [] with
                    | Some (g, r) => Some ((g ++ [(x, tok)])%list, r)
                    | None => None
                    end)) by (intros; apply IH).
      apply first_alternative_carry.
Qed.

Lemma iso_tail_parses_all :
  forallb (fun m => forallb (iso_tail_parses m) days) months = true.
Proof. vm_compute. reflexivity. Qed.

Lemma month_in_months (m : Z) : 1 <= m <= 12 -> In m months.
Proof.
  intro H. unfold months.
  assert (m = 1 \/ m = 2 \/ m = 3 \/ m = 4 \/ m = 5 \/ m = 6 \/ m = 7 \/
          m = 8 \/ m = 9 \/ m = 10 \/ m = 11 \/ m = 12) as E by lia.
  simpl. intuition.
Qed.

Lemma day_in_days (d : Z) : 1 <= d <= 31 -> In d days.
Proof.
  intro H. unfold days.
  assert (d = 1 \/ d = 2 \/ d = 3 \/ d = 4 \/ d = 5 \/ d = 6 \/ d = 7 \/
          d = 8 \/ d = 9 \/ d = 10 \/ d = 11 \/ d = 12 \/ d = 13 \/ d = 14 \/
          d = 15 \/ d = 16 \/ d = 17 \/ d = 18 \/ d = 19 \/ d = 20 \/
          d = 21 \/ d = 22 \/ d = 23 \/ d = 24 \/ d = 25 \/ d = 26 \/
          d = 27 \/ d = 28 \/ d = 29 \/ d = 30 \/ d = 31) as E by lia.
  simpl. intuition.
Qed.

Lemma days_in_month_le_31 (y m : Z) : days_in_month y m <= 31.
Proof.
  unfold days_in_month.
  destruct (m =? 2); [destruct (is_leap y); lia |].
  destruct ((m =? 4) || (m =? 6) || (m =? 9) || (m =? 11)); lia.
Qed.

Lemma valid_date_bounds (y m d : Z) :
  valid_date y m d = true ->
  1 <= y <= 9999 /\ 1 <= m <= 12 /\ 1 <= d <= 31.
Proof.
  unfold valid_date. intro H.
  repeat (apply andb_true_iff in H as [H ?]).
  pose proof (days_in_month_le_31 y m).
  repeat match goal with
         | E : (_ <=? _) = true |- _ => apply Z.leb_le in E
         end.
  lia.
Qed.

Lemma iso_tail_parses_valid (y m d : Z) :
  valid_date y m d = true -> iso_tail_parses m d = true.
Proof.
  intro H. apply valid_date_bounds in H as (_ & Hm & Hd).
  pose proof iso_tail_parses_all as Hall.
  rewrite forallb_forall in Hall.
  specialize (Hall m (month_in_months Hm)).
  rewrite forallb_forall in Hall.
  exact (Hall d (day_in_days Hd)).
Qed.

Lemma isoformat_split (y m d : Z) :
  isoformat (mkdate y m d) =
  String (digit_char (y / 10 / 10 / 10))
    (String (digit_char (y / 10 / 10))
       (String (digit_char (y / 10))
          (String (digit_char y) (iso_tail m d)))).
Proof. reflexivity. Qed.

Lemma strptime_isoformat (y m d : Z) :
  valid_date y m d = true ->
  strptime (isoformat (mkdate y m d)) "%Y-%m-%d" = ret (mkdate y m d).
Proof.
  intro Hvalid.
  pose proof (iso_tail_parses_valid y m d Hvalid) as Htail.
  pose proof (valid_date_bounds _ _ _ Hvalid) as (Hy & _ & _).
  pose proof (py_int_zero_padded_4 (y := y)) as Hyear.
  rewrite zero_padded_4 in Hyear.
  rewrite isoformat_split. unfold strptime, iso_tail_parses in *.
  change (format_items "%Y-%m-%d")
    with (Dir "Y"%char :: format_items "-%m-%d").
  cbn [match_items directive_alternatives Ascii.eqb Bool.eqb
       first_alternative match_classes in_class].
  rewrite !is_digit_digit_char.
  rewrite match_items_carry.
  destruct (match_items (format_items "-%m-%d") (iso_tail m d) [])
    as [[found rest] |]; [| discriminate Htail].
  destruct found as [| [xd td] [| [xm tm] [|]]]; try discriminate Htail.
  destruct rest; [| discriminate Htail].
  repeat (apply andb_true_iff in Htail as [Htail ?]).
  apply Ascii.eqb_eq in Htail. subst xd.
  match goal with E : Ascii.eqb xm _ = true |- _ =>
    apply Ascii.eqb_eq in E; subst xm end.
  destruct (py_int tm) as [e | vm] eqn:Em; [discriminate |].
  destruct (py_int td) as [e | vd] eqn:Ed; [discriminate |].
  match goal with E : (_ =? _) && (_ =? _) = true |- _ =>
    apply andb_true_iff in E as [E1 E2];
    apply Z.eqb_eq in E1; apply Z.eqb_eq in E2; subst vm vd end.
  cbn [app negb String.eqb group_int group Ascii.eqb Bool.eqb].
  rewrite Hyear, Em, Ed by lia. cbn [bind ret].
  unfold make_date. rewrite Hvalid. reflexivity.
Qed.

Lemma directive_alternatives_d :
  directive_alternatives "d" =
  [ [CChar "3"; CRange "0" "1"]; [CRange "1" "2"; CDigit];
    [CChar "0"; CRange "1" "9"]; [CRange "1" "9"];
    [CChar " "; CRange "1" "9"] ].
Proof. reflexivity. Qed.

Lemma directive_alternatives_m :
  directive_alternatives "m" =
  [ [CChar "1"; CRange "0" "2"]; [CChar "0"; CRange "1" "9"];
    [CRange "1" "9"] ].
Proof. reflexivity. Qed.

Lemma day_month_first_fails (x : ascii) (items : list item) (a b c : ascii)
  (s : string) (found : groups) :
  x = "d"%char \/ x = "m"%char ->
  is_digit a = true -> is_digit b = true -> is_digit c = true ->
  match_items (Dir x :: Lit "/" :: items) (String a (String b (String c s)))
    found = None.
Proof.
  intros Hx Ha Hb Hc.
  pose proof (is_digit_not_slash _ Hb) as Sb.
  pose proof (is_digit_not_slash _ Hc) as Sc.
  destruct Hx as [-> | ->]; cbn [match_items];
    rewrite ?directive_alternatives_d, ?directive_alternatives_m;
    cbn [first_alternative match_classes];
    repeat match goal with
           | |- context [in_class ?k ?ch] => destruct (in_class k ch)
           end;
    cbn [match_items first_alternative]; rewrite ?Sb, ?Sc; reflexivity.
Qed.

Lemma try_format_isoformat_slash (y m d : Z) (fmt : string) :
  In fmt ["%d/%m/%Y"; "%d/%m/%y"; "%m/%d/%Y"; "%m/%d/%y"] ->
  exists msg, try_format (isoformat (mkdate y m d)) fmt = raise (ValueError msg).
Proof.
  intro Hin. rewrite isoformat_split. unfold try_format, strptime.
  assert (Hnone :
    match_items (format_items fmt)
      (String (digit_char (y / 10 / 10 / 10))
         (String (digit_char (y / 10 / 10))
            (String (digit_char (y / 10))
               (String (digit_char y) (iso_tail m d))))) [] = None).
  { simpl in Hin.
    destruct Hin as [<- | [<- | [<- | [<- | []]]]];
      apply day_month_first_fails;
      auto using is_digit_digit_char. }
  rewrite Hnone. eexists. reflexivity.
Qed.

Lemma strip_isoformat (y m d : Z) :
  valid_date y m d = true ->
  strip (isoformat (mkdate y m d)) = isoformat (mkdate y m d).
Proof.
  intro Hvalid.
  pose proof (iso_tail_parses_valid y m d Hvalid) as Htail.
  unfold iso_tail_parses in Htail.
  destruct (match_items (format_items "-%m-%d") (iso_tail m d) [])
    as [[found rest] |]; [| discriminate Htail].
  destruct found as [| [xd td] [| [xm tm] [|]]]; try discriminate Htail.
  destruct rest; [| discriminate Htail].
  apply andb_true_iff in Htail as [_ Htail]. apply String.eqb_eq in Htail.
  rewrite isoformat_split. unfold strip. cbn [lstrip].
  rewrite (is_digit_not_space _ (is_digit_digit_char _)).
  cbn [rstrip]. rewrite Htail.
  unfold iso_tail. cbn [append]. reflexivity.
Qed.

(** X1: an ISO date text written by [isoformat] for a calendar date is read
    back by [parse_date] as that date. *)
Theorem parse_date_isoformat (y m d : Z) :
  valid_date y m d = true ->
  parse_date (PStr (isoformat (mkdate y m d))) = ret (PDate (mkdate y m d)).
Proof.
  intro Hvalid. unfold parse_date.
  assert (Ht : truthy (PStr (isoformat (mkdate y m d))) = true)
    by (rewrite isoformat_split; reflexivity).
  rewrite Ht. cbn [negb orb isinstance_str].
  rewrite (strip_isoformat _ _ _ Hvalid).
  unfold formats. rewrite !parse_date_loop_cons.
  destruct (try_format_isoformat_slash y m d (fmt := "%d/%m/%Y")) as [? ->];
    [simpl; tauto |].
  destruct (try_format_isoformat_slash y m d (fmt := "%d/%m/%y")) as [? ->];
    [simpl; tauto |].
  destruct (try_format_isoformat_slash y m d (fmt := "%m/%d/%Y")) as [? ->];
    [simpl; tauto |].
  destruct (try_format_isoformat_slash y m d (fmt := "%m/%d/%y")) as [? ->];
    [simpl; tauto |].
  unfold raise, try_format. rewrite (strptime_isoformat _ _ _ Hvalid).
  reflexivity.
Qed.

Lemma parse_date_isoformat_witness :
  parse_date (PStr (isoformat (mkdate 2024 2 29)))
  = ret (PDate (mkdate 2024 2 29)).
Proof. apply parse_date_isoformat. reflexivity. Defined.

(** ** More on [parse_date] *)

Lemma make_date_valid (y m d : Z) (dt : date) :
  make_date y m d = ret dt ->
  valid_date (year dt) (month dt) (day dt) = true.
Proof.
  unfold make_date. destruct (valid_date y m d) eqn:E; [| discriminate].
  intro H. injection H as <-. exact E.
Qed.

Lemma strptime_valid (value fmt : string) (dt : date) :
  strptime value fmt = ret dt ->
  valid_date (year dt) (month dt) (day dt) = true.
Proof.
  unfold strptime.
  destruct (match_items (format_items fmt) value []) as [[found rest] |];
    [| discriminate].
  destruct (negb (rest =? ""))%string; [discriminate |].
  destruct (group_int "Y" 1900 found) as [e | y4]; [discriminate |]. simpl.
  destruct (match group "y" found with
            | Some tok =>
                yy <- py_int tok;;
                ret (if yy <=? 68 then yy + 2000 else yy + 1900)
            | None => ret y4
            end) as [e | y]; [discriminate |]. simpl.
  destruct (group_int "m" 1 found) as [e | m]; [discriminate |]. simpl.
  destruct (group_int "d" 1 found) as [e | d]; [discriminate |]. simpl.
  apply make_date_valid.
Qed.

Lemma try_format_valid (value fmt : string) (dt : date) :
  try_format value fmt = ret dt ->
  valid_date (year dt) (month dt) (day dt) = true.
Proof.
  unfold try_format.
  destruct (strptime value fmt) as [e | dt0] eqn:E; [discriminate |]. simpl.
  destruct (contains "%y" fmt && (year dt0 <? 1930)).
  - apply make_date_valid.
  - intro H. injection H as <-. exact (strptime_valid _ _ E).
Qed.

Lemma parse_date_loop_valid (value : string) (fmts : list string) (r : pyval) :
  parse_date_loop value fmts = ret r -> none_or_valid_date r.
Proof.
  induction fmts as [| fmt fmts IH].
  - simpl. intro H. injection H as <-. left. reflexivity.
  - rewrite parse_date_loop_cons.
    destruct (try_format value fmt) as [e | dt] eqn:E; [exact IH |].
    intro H. injection H as <-. right. exists dt.
    split; [reflexivity | exact (try_format_valid _ _ E)].
Qed.

Lemma parse_date_ret_valid (value r : pyval) :
  parse_date value = ret r -> none_or_valid_date r.
Proof.
  unfold parse_date.
  destruct (negb (truthy value) || negb (isinstance_str value)).
  - intro H. injection H as <-. left. reflexivity.
  - destruct value; try discriminate.
    apply parse_date_loop_valid.
Qed.

(** X2: whatever it is given, [parse_date] returns without raising, and what
    it returns is [None] or a date of the calendar, with a year from 1 to
    9999, a month from 1 to 12 and a day that the month has. *)
Theorem parse_date_none_or_valid (value : pyval) :
  exists r, parse_date value = ret r /\ none_or_valid_date r.
Proof.
  destruct (parse_date_total value) as [r Hr]. exists r.
  split; [exact Hr | exact (parse_date_ret_valid _ Hr)].
Qed.

(** X3: for each of the five formats, the attempt of [parse_date] gives
    exactly what [strptime] gives: the test [dt.year < 1930] never holds, so
    no year is ever moved by a century. *)
Theorem try_format_is_strptime (value : string) :
  Forall (fun fmt => try_format value fmt = strptime value fmt) formats.
Proof.
  unfold formats.
  repeat apply Forall_cons; try apply Forall_nil; unfold try_format;
    destruct (strptime value _) as [e | dt] eqn:E; try reflexivity;
    cbn [bind]; try reflexivity.
  - rewrite (proj1 (century_fix_never_applies value dt) E). reflexivity.
  - rewrite (proj2 (century_fix_never_applies value dt) E). reflexivity.
Qed.

Lemma lstrip_head (s : string) :
  lstrip s = EmptyString \/
  exists c t, lstrip s = String c t /\ is_space c = false.
Proof.
  induction s as [| c s' IH]; simpl; [left; reflexivity |].
  destruct (is_space c) eqn:E; [exact IH |].
  right. exists c, s'. split; [reflexivity | exact E].
Qed.

Lemma rstrip_head (c : ascii) (t : string) :
  rstrip (String c t) = EmptyString \/ exists r, rstrip (String c t) = String c r.
Proof.
  simpl. destruct (rstrip t).
  - destruct (is_space c); [left; reflexivity | right; eexists; reflexivity].
  - right. eexists. reflexivity.
Qed.

Lemma rstrip_idempotent (s : string) : rstrip (rstrip s) = rstrip s.
Proof.
  induction s as [| c s' IH]; [reflexivity |].
  simpl. destruct (rstrip s') as [| c' r] eqn:E.
  - destruct (is_space c) eqn:Ec; [reflexivity |].
    simpl. rewrite Ec. reflexivity.
  - change (rstrip (String c (String c' r)))
      with (match rstrip (String c' r) with
            | EmptyString =>
                if is_space c then EmptyString else String c EmptyString
            | r0 => String c r0
            end).
    rewrite IH. reflexivity.
Qed.

Lemma strip_idempotent (s : string) : strip (strip s) = strip s.
Proof.
  unfold strip.
  destruct (lstrip_head s) as [-> | (c & t & -> & Hc)]; [reflexivity |].
  destruct (rstrip_head c t) as [-> | [r Hr]]; [reflexivity |].
  rewrite Hr. cbn [lstrip]. rewrite Hc, <- Hr. apply rstrip_idempotent.
Qed.

(** X4: blanks around the text do not count: [parse_date] gives the same
    answer for a text and for the text without its leading and trailing
    whitespace. *)
Theorem parse_date_ignores_blanks (s : string) :
  parse_date (PStr s) = parse_date (PStr (strip s)).
Proof.
  unfold parse_date. cbn [isinstance_str negb orb truthy].
  rewrite !orb_false_r, strip_idempotent.
  destruct s as [| c s']; [reflexivity |].
  cbn [String.eqb negb].
  destruct (strip (String c s')) eqn:E; reflexivity.
Qed.

(** ** [normalize_dates] *)

Lemma normalize_dates_get (k : string) (record : dict) :
  dict_get k (normalize_dates record) = option_map date_to_text (dict_get k record).
Proof.
  induction record as [| [k' v] record' IH]; [reflexivity |].
  simpl. destruct (String.eqb k k'); [| exact IH].
  destruct v; reflexivity.
Qed.

Lemma date_to_text_idempotent (v : pyval) :
  date_to_text (date_to_text v) = date_to_text v.
Proof. destruct v; reflexivity. Qed.

(** X5: [normalize_dates] keeps the keys of the record and their order; a
    key is looked up in the result as in the record, a date value replaced
    by its ISO text and any other value unchanged; no date object is left;
    and a second pass changes nothing. *)
Theorem normalize_dates_keeps_record (record : dict) :
  dict_keys (normalize_dates record) = dict_keys record /\
  (forall k, dict_get k (normalize_dates record)
             = option_map date_to_text (dict_get k record)) /\
  forallb (fun kv => negb (is_date (snd kv))) (normalize_dates record) = true /\
  normalize_dates (normalize_dates record) = normalize_dates record.
Proof.
  split; [| split; [| split]].
  - unfold dict_keys, normalize_dates. rewrite map_map. reflexivity.
  - intro k. apply normalize_dates_get.
  - induction record as [| [k v] record' IH]; [reflexivity |].
    simpl. rewrite IH. destruct v; reflexivity.
  - induction record as [| [k v] record' IH]; [reflexivity |].
    simpl. simpl in IH. rewrite IH. destruct v; reflexivity.
Qed.

(** ** The license number check *)

Lemma license_tail_spec (s : string) :
  license_tail s = true <->
  string_forallb license_char s = true \/
  exists w, string_forallb license_char w = true /\
            s = w ++ String newline EmptyString.
Proof.
  induction s as [| c s' IH]; simpl.
  - split; [left; reflexivity | reflexivity].
  - destruct (license_char c) eqn:Ec; simpl.
    + rewrite IH. split; intros [H | (w & Hw & E)].
      * left. exact H.
      * right. exists (String c w). subst s'. simpl. rewrite Ec, Hw.
        split; reflexivity.
      * left. exact H.
      * right. destruct w as [| c' w']; simpl in E.
        -- injection E as -> ->. vm_compute in Ec. discriminate Ec.
        -- injection E as -> ->. simpl in Hw.
           apply andb_true_iff in Hw as [_ Hw]. exists w'.
           split; [exact Hw | reflexivity].
    + split.
      * intro H. apply andb_true_iff in H as [H1 H2].
        apply Ascii.eqb_eq in H1. apply String.eqb_eq in H2. subst.
        right. exists EmptyString. split; reflexivity.
      * intros [H | (w & Hw & E)]; [discriminate H |].
        destruct w as [| c' w']; simpl in E.
        -- injection E as -> ->. reflexivity.
        -- injection E as -> ->. simpl in Hw. rewrite Ec in Hw. discriminate Hw.
Qed.

(** X6: the check of the license number accepts exactly the texts made of
    one or more letters, digits, underscores and hyphens, followed or not by
    one newline. *)
Theorem re_match_license_accepts (s : string) :
  re_match_license s = true <->
  exists w, w <> EmptyString /\ string_forallb license_char w = true /\
            (s = w \/ s = w ++ String newline EmptyString).
Proof.
  destruct s as [| c s']; simpl.
  - split; [discriminate |].
    intros (w & Hw & _ & [E | E]).
    + subst. contradiction Hw. reflexivity.
    + destruct w; discriminate E.
  - split.
    + intro H. apply andb_true_iff in H as [Hc Ht].
      apply license_tail_spec in Ht as [Ht | (w & Hw & ->)].
      * exists (String c s'). simpl. rewrite Hc, Ht.
        repeat split; [discriminate | left; reflexivity].
      * exists (String c w). simpl. rewrite Hc, Hw.
        repeat split; [discriminate | right; reflexivity].
    + intros (w & Hw & Hall & [E | E]).
      * subst w. simpl in Hall. apply andb_true_iff in Hall as [Hc Ht].
        rewrite Hc. apply license_tail_spec. left. exact Ht.
      * destruct w as [| c' w']; [contradiction Hw; reflexivity |].
        simpl in E. injection E as -> ->. simpl in Hall.
        apply andb_true_iff in Hall as [Hc Ht].
        rewrite Hc. apply license_tail_spec. right. exists w'.
        split; [exact Ht | reflexivity].
Qed.

(** ** More on [extract_dl] *)

Lemma traced_ret {A : Type} (P : event -> Prop) (Q : A -> Prop) (a : A) :
  Q a -> traced P Q (io_ret a).
Proof.
  intro H. split; [apply Forall_nil |].
  intros a' E. injection E as <-. exact H.
Qed.

Lemma traced_raise {A : Type} (P : event -> Prop) (Q : A -> Prop) (e : exn) :
  traced P Q (io_raise e).
Proof. split; [apply Forall_nil | intros a E; discriminate E]. Qed.

Lemma traced_lift {A : Type} (P : event -> Prop) (r : exc A) :
  traced P (fun a => r = ret a) (lift r).
Proof. split; [apply Forall_nil | intros a E; exact E]. Qed.

Lemma traced_perform {A : Type} (P : event -> Prop) (ev : event) (r : exc A) :
  P ev -> traced P (fun a => r = ret a) (perform ev r).
Proof.
  intro H. split; [apply Forall_cons; [exact H | apply Forall_nil] |].
  intros a E. exact E.
Qed.

Lemma traced_bind {A B : Type} (P : event -> Prop) (Q : A -> Prop)
  (R : B -> Prop) (m : io A) (f : A -> io B) :
  traced P Q m -> (forall a, Q a -> traced P R (f a)) ->
  traced P R (io_bind m f).
Proof.
  intros [Ht Ho] Hf. destruct m as [t [e | a]]; unfold trace, outcome in *;
    simpl in *.
  - split; [exact Ht | intros b E; discriminate E].
  - destruct (Hf a (Ho a eq_refl)) as [Ht' Ho'].
    destruct (f a) as [t' r]. simpl in *.
    split; [apply Forall_app; split; assumption | exact Ho'].
Qed.

Lemma traced_try {A : Type} (P : event -> Prop) (Q : A -> Prop) (m : io A)
  (h : exn -> io A) :
  traced P Q m -> (forall e, traced P Q (h e)) -> traced P Q (io_try m h).
Proof.
  intros [Ht Ho] Hh. destruct m as [t [e | a]]; unfold trace, outcome in *;
    simpl in *.
  - destruct (Hh e) as [Ht' Ho']. destruct (h e) as [t' r]. simpl in *.
    split; [apply Forall_app; split; assumption | exact Ho'].
  - split; [exact Ht | exact Ho].
Qed.

Lemma traced_weaken {A : Type} (P : event -> Prop) (Q Q' : A -> Prop)
  (m : io A) :
  traced P Q m -> (forall a, Q a -> Q' a) -> traced P Q' m.
Proof.
  intros [Ht Ho] H. split; [exact Ht | intros a E; exact (H a (Ho a E))].
Qed.

Lemma fetch_table_row_traced (w : World) (license_number : pyval) :
  traced table_event_ok
    (fun row =>
       (truthy license_number = false /\ row = PNone) \/
       exists s, license_number = PStr s /\ re_match_license s = true)
    (fetch_table_row w license_number).
Proof.
  unfold fetch_table_row.
  destruct (truthy license_number) eqn:Et;
    [| apply traced_ret; left; split; reflexivity].
  destruct license_number; try apply traced_raise.
  cbn [py_re_match_license]. rewrite io_bind_lift_ret.
  destruct (re_match_license s) eqn:Eok; [| apply traced_raise].
  cbn [negb]. apply traced_try.
  - eapply traced_bind; [apply traced_perform; exact Eok |].
    intros rows _.
    destruct rows; apply traced_ret; right; exists s; split; reflexivity || exact Eok.
  - intro e. apply traced_ret. right. exists s. split; [reflexivity | exact Eok].
Qed.

Lemma truthy_date_to_text (v : pyval) : truthy (date_to_text v) = truthy v.
Proof. destruct v; reflexivity. Qed.

Lemma date_field_ok_parsed (raw r : pyval) :
  parse_date raw = ret r -> date_field_ok (Some (date_to_text r)).
Proof.
  intro H. apply parse_date_ret_valid in H as [-> | (dt & -> & Hv)].
  - left. reflexivity.
  - right. exists dt. split; [reflexivity | exact Hv].
Qed.

Lemma py_or_endorsements (v : pyval) :
  truthy (date_to_text (py_or v (PStr ""))) = true \/
  date_to_text (py_or v (PStr "")) = PStr "".
Proof.
  unfold py_or. destruct (truthy v) eqn:E.
  - left. rewrite truthy_date_to_text. exact E.
  - right. reflexivity.
Qed.

Lemma py_or_full_name (v : pyval) :
  truthy (date_to_text (py_or v (PStr "Unknown"))) = true.
Proof.
  rewrite truthy_date_to_text. unfold py_or.
  destruct (truthy v) eqn:E; [exact E | reflexivity].
Qed.

Lemma extract_dl_traced (w : World) (state : dict) :
  traced table_event_ok extract_dl_result_ok (extract_dl w state).
Proof.
  unfold extract_dl.
  eapply traced_bind; [apply traced_lift | intros path _].
  eapply traced_bind;
    [apply traced_try;
       [apply traced_perform; exact I | intro; apply traced_raise]
    | intros result _].
  eapply traced_bind; [apply traced_lift | intros raw_dob _].
  eapply traced_bind; [apply traced_lift | intros raw_issue _].
  eapply traced_bind; [apply traced_lift | intros raw_expiry _].
  eapply traced_bind; [apply traced_lift | intros name _].
  eapply traced_bind; [apply traced_lift | intros license_no _].
  eapply traced_bind; [apply traced_lift | intros address _].
  eapply traced_bind; [apply traced_lift | intros dob Hdob].
  eapply traced_bind; [apply traced_lift | intros issue Hissue].
  eapply traced_bind; [apply traced_lift | intros expiry Hexpiry].
  eapply traced_bind; [apply traced_lift | intros endorsements _].
  eapply traced_bind; [apply traced_lift | intros sex _].
  eapply traced_bind; [apply traced_lift | intros height _].
  cbv zeta.
  assert (Hrecord : dl_record_ok
    (normalize_dates
       [ ("FULL_NAME", py_or name (PStr "Unknown"));
         ("LICENSE_NUMBER", license_no);
         ("ADDRESS", address);
         ("DATE_OF_BIRTH", dob);
         ("ISSUE_DATE", issue);
         ("EXPIRY_DATE", expiry);
         ("ENDORSEMENTS", py_or endorsements (PStr ""));
         ("SEX", sex);
         ("HEIGHT", height) ])).
  { unfold dl_record_ok. rewrite !normalize_dates_get.
    split; [reflexivity |].
    split; [eexists; split; [reflexivity | apply py_or_full_name] |].
    split; [eexists; split; [reflexivity | apply py_or_endorsements] |].
    split; [exact (date_field_ok_parsed _ Hdob) |].
    split; [exact (date_field_ok_parsed _ Hissue)
           | exact (date_field_ok_parsed _ Hexpiry)]. }
  eapply traced_bind; [apply traced_lift | intros license_number Hnumber].
  unfold dict_getitem in Hnumber. rewrite normalize_dates_get in Hnumber.
  cbn in Hnumber. injection Hnumber as Hnumber.
  eapply traced_bind; [apply fetch_table_row_traced | intros row Hrow].
  eapply traced_bind; [apply traced_lift | intros stored Hstored].
  unfold dict_getitem in Hstored. rewrite normalize_dates_get in Hstored.
  cbn in Hstored. injection Hstored as Hstored.
  rewrite Hnumber in Hstored. subst stored.
  destruct (truthy license_number) eqn:Et; cbn [negb].
  - destruct Hrow as [[Hf _] | (s & -> & Hs)]; [rewrite Hf in Et; discriminate |].
    assert (Hkey : dict_get "LICENSE_NUMBER"
      (normalize_dates
         [ ("FULL_NAME", py_or name (PStr "Unknown"));
           ("LICENSE_NUMBER", license_no);
           ("ADDRESS", address);
           ("DATE_OF_BIRTH", dob);
           ("ISSUE_DATE", issue);
           ("EXPIRY_DATE", expiry);
           ("ENDORSEMENTS", py_or endorsements (PStr ""));
           ("SEX", sex);
           ("HEIGHT", height) ]) = Some (PStr s)).
    { rewrite normalize_dates_get. cbn. rewrite Hnumber. reflexivity. }
    eapply traced_bind with (Q := fun _ => True).
    + apply traced_try.
      * eapply traced_weaken;
          [apply traced_perform; exists s; split; [exact Hkey | exact Hs]
          | intros; exact I].
      * intro e. apply traced_ret. exact I.
    + intros _ _. apply traced_ret.
      do 3 eexists. split; [reflexivity |]. split; [exact Hrecord |].
      right. split; [reflexivity |]. exists s. split; [exact Hkey | exact Hs].
  - destruct Hrow as [[_ ->] | (s & -> & Hs)].
    + apply traced_ret.
      do 3 eexists. split; [reflexivity |]. split; [exact Hrecord |].
      left. split; [reflexivity |]. split; [reflexivity |].
      exists license_number. split; [| exact Et].
      rewrite normalize_dates_get. cbn. rewrite Hnumber. reflexivity.
    + simpl in Et. destruct s; [discriminate Hs | discriminate Et].
Qed.

(** X7: whatever the services answer, every table lookup and every upsert
    that [extract_dl] makes is made for a license number that passed the
    format check; the upsert is made on a record that carries that number. *)
Theorem extract_dl_table_access_checked (w : World) (state : dict) :
  Forall table_event_ok (trace (extract_dl w state)).
Proof. exact (proj1 (extract_dl_traced w state)). Qed.

(** X8: when [extract_dl] returns, it returns the record under ["dl"], the
    stored row, and one step.  The record has the nine fields in order; its
    name is never empty ("Unknown" when none was read); its endorsements are
    a value that counts as true or the empty text; each of its three dates is
    [None] or the ISO text of a calendar date.  The step says "Stored"
    exactly when the record has a license number, and that number then passed
    the format check. *)
Theorem extract_dl_returns_record (w : World) (state u : dict) :
  outcome (extract_dl w state) = ret u -> extract_dl_result_ok u.
Proof. exact (proj2 (extract_dl_traced w state) u). Qed.

Lemma extract_dl_returns_record_witness :
  extract_dl_result_ok
    [ ("dl",
       PDict [ ("FULL_NAME", PStr "Unknown");
               ("LICENSE_NUMBER", PStr "AB-12");
               ("ADDRESS", PNone);
               ("DATE_OF_BIRTH", PStr "2005-04-03");
               ("ISSUE_DATE", PNone);
               ("EXPIRY_DATE", PNone);
               ("ENDORSEMENTS", PStr "");
               ("SEX", PNone);
               ("HEIGHT", PNone) ]);
      ("table_row", PNone);
      ("steps", PList [PStr "Driver's License Extracted & Stored"]) ].
Proof.
  apply (@extract_dl_returns_record
           (sample_world
              (PDict [ ("license_no", PDict [("value", PStr "AB-12")]);
                       ("dob", PStr "03/04/05") ])
              (PDict []) "" None)
           [("dl_path", PStr "license.png")]).
  reflexivity.
Defined.

Lemma fetch_table_row_valid (w : World) (s : string) :
  re_match_license s = true ->
  fetch_table_row w (PStr s) = ([EvTableFilter s], ret (fetched_row w s)).
Proof.
  intro H. unfold fetch_table_row, fetched_row.
  assert (Ht : truthy (PStr s) = true) by (destruct s; [discriminate H | reflexivity]).
  rewrite Ht. unfold py_re_match_license. rewrite H.
  rewrite io_bind_lift_ret. cbn [negb].
  unfold io_try, io_bind, perform.
  destruct (table_filter w s) as [e | [| row rows]]; reflexivity.
Qed.

Lemma merge_swallowed (record : dict) (r : exc unit) :
  io_try (perform (EvTableMerge record) r) (fun _ => io_ret tt)
  = ([EvTableMerge record], ret tt).
Proof. destruct r as [e | []]; reflexivity. Qed.

(** X9: when the extraction gives a license number that passes the check,
    [extract_dl] makes the lookup and then the upsert, once each and in that
    order, and returns with the step "Driver's License Extracted & Stored"
    whatever the two calls do: a failed lookup counts as no row, and a failed
    upsert changes neither the result nor the step. *)
Theorem extract_dl_valid_license_stores
  (w : World) (state : dict) (path : pyval) (d : dict) (s : string) :
  dict_get "dl_path" state = Some path ->
  predict w "LICENSE_DATA" path = ret (PDict d) ->
  safe_extract (dict_get_default "license_no" PNone d) = ret (PStr s) ->
  re_match_license s = true ->
  exists record,
    dict_get "LICENSE_NUMBER" record = Some (PStr s) /\
    extract_dl w state =
    ([ EvPredict "LICENSE_DATA" path; EvTableFilter s; EvTableMerge record ],
     ret [ ("dl", PDict record);
           ("table_row", fetched_row w s);
           ("steps", PList [PStr "Driver's License Extracted & Stored"]) ]).
Proof.
  intros Hpath Hpredict Hlicense Hok.
  unfold extract_dl, dict_getitem at 1. rewrite Hpath, io_bind_lift_ret.
  rewrite Hpredict.
  change (io_try (perform ?ev (ret ?a)) ?h) with (perform ev (ret a)).
  rewrite io_bind_perform_ret. cbv beta.
  assert (Hno : extract_field (PDict d) "license_no" = ret (PStr s))
    by exact Hlicense.
  destruct (extract_field_total d "dob") as [v ->].
  destruct (extract_field_total d "issue_date") as [v0 ->].
  destruct (extract_field_total d "expiry_date") as [v1 ->].
  destruct (extract_field_total d "name") as [name ->].
  destruct (extract_field_total d "address") as [address ->].
  destruct (extract_field_total d "endorsements") as [endorsements ->].
  destruct (extract_field_total d "sex") as [sex ->].
  destruct (extract_field_total d "height") as [height ->].
  rewrite Hno, !io_bind_lift_ret.
  destruct (parse_date_total v) as [dob ->].
  destruct (parse_date_total v0) as [issue ->].
  destruct (parse_date_total v1) as [expiry ->].
  rewrite !io_bind_lift_ret. cbv zeta.
  match goal with
  | |- context [normalize_dates ?l] => set (record := normalize_dates l)
  end.
  assert (Hkey : dict_get "LICENSE_NUMBER" record = Some (PStr s))
    by (subst record; rewrite normalize_dates_get; reflexivity).
  assert (Ht : truthy (PStr s) = true)
    by (destruct s; [discriminate Hok | reflexivity]).
  exists record. split; [exact Hkey |].
  unfold dict_getitem. rewrite Hkey. cbv beta iota.
  rewrite io_bind_lift_ret, (fetch_table_row_valid w s Hok).
  change ([EvTableFilter s], ret (fetched_row w s))
    with (perform (EvTableFilter s) (ret (fetched_row w s))).
  rewrite io_bind_perform_ret, io_bind_lift_ret, Ht. cbn [negb].
  rewrite merge_swallowed. reflexivity.
Qed.

Lemma extract_dl_valid_license_stores_witness :
  exists record,
    dict_get "LICENSE_NUMBER" record = Some (PStr "AB-12") /\
    extract_dl
      (sample_world (PDict [("license_no", PDict [("value", PStr "AB-12")])])
         (PDict []) "" None)
      [("dl_path", PStr "license.png")]
    = ([ EvPredict "LICENSE_DATA" (PStr "license.png"); EvTableFilter "AB-12";
         EvTableMerge record ],
       ret [ ("dl", PDict record);
             ("table_row", PNone);
             ("steps", PList [PStr "Driver's License Extracted & Stored"]) ]).
Proof.
  apply (@extract_dl_valid_license_stores
           (sample_world
              (PDict [("license_no", PDict [("value", PStr "AB-12")])])
              (PDict []) "" None)
           [("dl_path", PStr "license.png")] (PStr "license.png")
           [("license_no", PDict [("value", PStr "AB-12")])] "AB-12");
    reflexivity.
Defined.

(** X10: when the extraction gives no license number (none, or an empty
    one), [extract_dl] touches the table neither to look up nor to store: its
    only external call is the extraction, and it returns the record with no
    stored row and the step "DL Extracted (Not Stored: Missing License
    Number)". *)
Theorem extract_dl_missing_license_skips_table
  (w : World) (state : dict) (path : pyval) (d : dict) (number : pyval) :
  dict_get "dl_path" state = Some path ->
  predict w "LICENSE_DATA" path = ret (PDict d) ->
  safe_extract (dict_get_default "license_no" PNone d) = ret number ->
  truthy number = false ->
  exists record,
    dict_get "LICENSE_NUMBER" record = Some number /\
    extract_dl w state =
    ([ EvPredict "LICENSE_DATA" path ],
     ret [ ("dl", PDict record);
           ("table_row", PNone);
           ("steps",
            PList [PStr "DL Extracted (Not Stored: Missing License Number)"]) ]).
Proof.
  intros Hpath Hpredict Hlicense Hfalsy.
  unfold extract_dl, dict_getitem at 1. rewrite Hpath, io_bind_lift_ret.
  rewrite Hpredict.
  change (io_try (perform ?ev (ret ?a)) ?h) with (perform ev (ret a)).
  rewrite io_bind_perform_ret. cbv beta.
  assert (Hno : extract_field (PDict d) "license_no" = ret number)
    by exact Hlicense.
  destruct (extract_field_total d "dob") as [v ->].
  destruct (extract_field_total d "issue_date") as [v0 ->].
  destruct (extract_field_total d "expiry_date") as [v1 ->].
  destruct (extract_field_total d "name") as [name ->].
  destruct (extract_field_total d "address") as [address ->].
  destruct (extract_field_total d "endorsements") as [endorsements ->].
  destruct (extract_field_total d "sex") as [sex ->].
  destruct (extract_field_total d "height") as [height ->].
  rewrite Hno, !io_bind_lift_ret.
  destruct (parse_date_total v) as [dob ->].
  destruct (parse_date_total v0) as [issue ->].
  destruct (parse_date_total v1) as [expiry ->].
  rewrite !io_bind_lift_ret. cbv zeta.
  match goal with
  | |- context [normalize_dates ?l] => set (record := normalize_dates l)
  end.
  assert (Hkey : dict_get "LICENSE_NUMBER" record = Some number).
  { subst record. rewrite normalize_dates_get. cbn.
    destruct number; try reflexivity; discriminate Hfalsy. }
  exists record. split; [exact Hkey |].
  unfold dict_getitem. rewrite Hkey. cbv beta iota.
  rewrite io_bind_lift_ret. unfold fetch_table_row. rewrite Hfalsy.
  change (io_bind (io_ret PNone) ?f) with (io_bind (lift (ret PNone)) f).
  rewrite !io_bind_lift_ret, Hfalsy. reflexivity.
Qed.

Lemma extract_dl_missing_license_skips_table_witness :
  exists record,
    dict_get "LICENSE_NUMBER" record = Some PNone /\
    extract_dl (sample_world (PDict []) (PDict []) "" None)
      [("dl_path", PStr "license.png")]
    = ([ EvPredict "LICENSE_DATA" (PStr "license.png") ],
       ret [ ("dl", PDict record);
             ("table_row", PNone);
             ("steps",
              PList
                [PStr "DL Extracted (Not Stored: Missing License Number)"]) ]).
Proof.
  apply (@extract_dl_missing_license_skips_table
           (sample_world (PDict []) (PDict []) "" None)
           [("dl_path", PStr "license.png")] (PStr "license.png") [] PNone);
    reflexivity.
Defined.

(** ** Dicts *)

Lemma dict_get_set_same (k : string) (v : pyval) (d : dict) :
  dict_get k (dict_set k v d) = Some v.
Proof.
  induction d as [| [k' v'] d' IH]; simpl.
  - rewrite String.eqb_refl. reflexivity.
  - destruct (String.eqb k k') eqn:E; simpl; rewrite E; [reflexivity | exact IH].
Qed.

Lemma dict_get_set_other (k k' : string) (v : pyval) (d : dict) :
  k' <> k -> dict_get k' (dict_set k v d) = dict_get k' d.
Proof.
  intro Hne. apply String.eqb_neq in Hne.
  induction d as [| [k0 v0] d' IH]; simpl.
  - rewrite Hne. reflexivity.
  - destruct (String.eqb k k0) eqn:E; simpl.
    + apply String.eqb_eq in E. subst k0. rewrite Hne. reflexivity.
    + rewrite IH. reflexivity.
Qed.

(** ** More on [extract_claim] *)

Lemma color_loop_result (fields : list string) (d : dict) (r : pyval) :
  color_loop fields (PDict d) = ret r ->
  r = PDict d \/
  exists g, r = PDict (dict_set "car_color"
                         (PList [PDict [("value", PStr (strip g))]]) d).
Proof.
  induction fields as [| field fields' IH].
  - simpl. intro H. injection H as <-. left. reflexivity.
  - rewrite color_loop_cons.
    destruct (dict_get field d) as [v |]; [| exact IH].
    destruct v as [| | | | s | | | l | e]; try discriminate.
    + destruct s; discriminate.
    + destruct l as [| x l']; [discriminate |].
      destruct x; try discriminate.
      destruct (dict_get_default "value" (PStr "") d0); try discriminate.
      destruct (re_search_color s) as [g |]; [| exact IH].
      intro H. injection H as <-. right. exists g. reflexivity.
Qed.

(** X11: when [extract_claim] returns, the claim it returns is the mapping
    that the extraction service gave with at most one change, the entry
    ["car_color"], which is then a one-element list holding a mapping whose
    ["value"] is a text without blanks around it; every other field is as the
    service gave it. *)
Theorem extract_claim_keeps_fields
  (w : World) (state : dict) (path : pyval) (d u : dict) :
  dict_get "claim_path" state = Some path ->
  predict w "CLAIMS_DATA" path = ret (PDict d) ->
  outcome (extract_claim w state) = ret u ->
  exists d',
    u = [("claim", PDict d'); ("steps", PList [PStr "Claim Extracted"])] /\
    (forall k, k <> "car_color" -> dict_get k d' = dict_get k d) /\
    (d' = d \/
     exists g, dict_get "car_color" d'
               = Some (PList [PDict [("value", PStr g)]]) /\ strip g = g).
Proof.
  intros Hpath Hpredict.
  rewrite (extract_claim_outcome w state Hpath Hpredict).
  destruct (color_loop ["description"; "vehicle"] (PDict d)) as [e | r] eqn:E;
    [discriminate |].
  intro H. injection H as <-.
  apply color_loop_result in E as [-> | [g ->]].
  - exists d. split; [reflexivity |]. split; [reflexivity | left; reflexivity].
  - eexists. split; [reflexivity |]. split.
    + intros k Hk. apply dict_get_set_other. exact Hk.
    + right. exists (strip g). rewrite dict_get_set_same.
      split; [reflexivity | apply strip_idempotent].
Qed.

Lemma extract_claim_keeps_fields_witness :
  exists d',
    [ ("claim",
       PDict [ ("description",
                PList [PDict [("value", PStr "Make: Kia, Color:  Red , dent")]]);
               ("car_color", PList [PDict [("value", PStr "Red")]]) ]);
      ("steps", PList [PStr "Claim Extracted"]) ]
    = [("claim", PDict d'); ("steps", PList [PStr "Claim Extracted"])] /\
    (forall k, k <> "car_color" ->
       dict_get k d'
       = dict_get k
           [("description",
             PList [PDict [("value", PStr "Make: Kia, Color:  Red , dent")]])]) /\
    (d' = [("description",
            PList [PDict [("value", PStr "Make: Kia, Color:  Red , dent")]])] \/
     exists g, dict_get "car_color" d'
               = Some (PList [PDict [("value", PStr g)]]) /\ strip g = g).
Proof.
  apply (@extract_claim_keeps_fields
           (sample_world PNone
              (PDict [("description",
                       PList [PDict [("value",
                                      PStr "Make: Kia, Color:  Red , dent")]])])
              "" None)
           [("claim_path", PStr "claim.pdf")] (PStr "claim.pdf"));
    reflexivity.
Defined.

(** ** The embedded JSON object *)

Lemma upto_last_brace_none (s : string) :
  upto_last_brace s = None <->
  string_forallb (fun c => negb (Ascii.eqb c "}")) s = true.
Proof.
  induction s as [| c s' IH]; simpl; [tauto |].
  destruct (upto_last_brace s') as [t |].
  - split; [discriminate |].
    intro H. apply andb_true_iff in H as [_ H].
    apply IH in H. discriminate H.
  - destruct (Ascii.eqb c "}"); simpl.
    + split; discriminate.
    + split; [intros _; apply IH; reflexivity | reflexivity].
Qed.

Lemma no_brace_app (mid post : string) :
  string_forallb (fun c => negb (Ascii.eqb c "}")) (mid ++ String "}" post)
  = false.
Proof.
  induction mid as [| a mid' IH]; simpl; [reflexivity |].
  rewrite IH. apply andb_false_r.
Qed.

Lemma upto_last_brace_some (s u : string) :
  upto_last_brace s = Some u <->
  exists mid post,
    s = mid ++ String "}" post /\
    string_forallb (fun c => negb (Ascii.eqb c "}")) post = true /\
    u = mid ++ String "}" EmptyString.
Proof.
  revert u. induction s as [| c s' IH]; intro u; simpl.
  - split; [discriminate |].
    intros (mid & post & E & _). destruct mid; discriminate E.
  - destruct (upto_last_brace s') as [t |] eqn:Et.
    + split.
      * intro H. injection H as <-.
        destruct (proj1 (IH t) eq_refl) as (mid & post & -> & Hp & ->).
        exists (String c mid), post. repeat split; assumption.
      * intros (mid & post & E & Hp & ->).
        destruct mid as [| c' mid']; simpl in E.
        -- injection E as -> ->.
           apply upto_last_brace_none in Hp. rewrite Hp in Et. discriminate Et.
        -- injection E as -> ->.
           assert (Some t = Some (mid' ++ String "}" EmptyString)) as Ht.
           { apply IH. exists mid', post. repeat split; assumption. }
           injection Ht as ->. reflexivity.
    + apply upto_last_brace_none in Et.
      destruct (Ascii.eqb c "}") eqn:Ec.
      * apply Ascii.eqb_eq in Ec. subst c. split.
        -- intro H. injection H as <-. exists EmptyString, s'.
           repeat split. exact Et.
        -- intros (mid & post & E & Hp & ->).
           destruct mid as [| c' mid']; simpl in E.
           ++ reflexivity.
           ++ injection E as E1 E2. subst c' s'.
              rewrite no_brace_app in Et. discriminate Et.
      * split; [discriminate |].
        intros (mid & post & E & Hp & ->).
        destruct mid as [| c' mid']; simpl in E.
        -- injection E as -> ->. discriminate Ec.
        -- injection E as -> ->. rewrite no_brace_app in Et. discriminate Et.
Qed.

(** X12: the search for the embedded object finds the text from the first
    opening brace to the last closing brace after it, both included, and
    finds nothing exactly when no closing brace follows the first opening
    one. *)
Theorem re_search_braces_first_to_last (text g : string) :
  re_search_braces text = Some g <->
  exists pre mid post,
    text = pre ++ String "{" (mid ++ String "}" post) /\
    string_forallb (fun c => negb (Ascii.eqb c "{")) pre = true /\
    string_forallb (fun c => negb (Ascii.eqb c "}")) post = true /\
    g = String "{" (mid ++ String "}" EmptyString).
Proof.
  induction text as [| c text' IH]; simpl.
  - split; [discriminate |].
    intros (pre & mid & post & E & _). destruct pre; discriminate E.
  - destruct (Ascii.eqb c "{") eqn:Ec.
    + apply Ascii.eqb_eq in Ec. subst c. split.
      * destruct (upto_last_brace text') as [t |] eqn:Et; [| discriminate].
        intro H. injection H as <-.
        apply upto_last_brace_some in Et as (mid & post & -> & Hp & ->).
        exists EmptyString, mid, post. repeat split. exact Hp.
      * intros (pre & mid & post & E & Hpre & Hp & ->).
        destruct pre as [| c' pre']; simpl in E.
        -- injection E as ->.
           assert (Ht : upto_last_brace (mid ++ String "}" post)
                        = Some (mid ++ String "}" EmptyString)).
           { apply upto_last_brace_some. exists mid, post.
             repeat split. exact Hp. }
           rewrite Ht. reflexivity.
        -- injection E as E1 E2. subst c'. simpl in Hpre. discriminate Hpre.
    + rewrite IH. split.
      * intros (pre & mid & post & -> & Hpre & Hp & ->).
        exists (String c pre), mid, post. simpl. rewrite Ec, Hpre.
        repeat split. exact Hp.
      * intros (pre & mid & post & E & Hpre & Hp & ->).
        destruct pre as [| c' pre']; simpl in E.
        -- injection E as E1 E2. subst c. discriminate Ec.
        -- injection E as E1 E2. subst c' text'. simpl in Hpre.
           apply andb_true_iff in Hpre as [_ Hpre].
           exists pre', mid, post. repeat split; assumption.
Qed.

(** ** More on [compare_and_email] *)

Lemma io_bind_perform_ret_pair {A B : Type} (ev : event) (a : A)
  (f : A -> io B) (t : list event) (r : exc B) :
  f a = (t, r) -> io_bind (perform ev (ret a)) f = (ev :: t, r).
Proof. intro H. rewrite io_bind_perform_ret, H. reflexivity. Qed.

(** X13: given the three records and the two replies of the model,
    [compare_and_email] makes exactly the two model calls and returns the
    normalized verdict of the first reply, the decision read from it,
    accepted exactly when the verdict's [license_validity] counts as true,
    and the text of the second reply as the email. *)
Theorem compare_and_email_result
  (w : World) (state : dict) (dl claim car body raw email_body email_text : pyval) :
  dict_get "dl" state = Some dl ->
  dict_get "claim" state = Some claim ->
  dict_get "car" state = Some car ->
  invoke_model w 1 = ret body ->
  reply_text body = ret raw ->
  invoke_model w 2 = ret email_body ->
  reply_text email_body = ret email_text ->
  compare_and_email w state =
  ([EvInvokeModel 1; EvInvokeModel 2],
   ret [ ("comparison",
          verdict_schema
            (coerced_sub (parse_comparison w raw) "name" "claim_table")
            (coerced_sub (parse_comparison w raw) "license_no" "claim_table")
            (coerced_sub (parse_comparison w raw) "license_no" "dl_table")
            (coerced_sub (parse_comparison w raw) "address" "claim_table")
            (coerced_sub (parse_comparison w raw) "address" "dl_table")
            (coerced_sub (parse_comparison w raw) "car_make" "claim_car")
            (coerced_sub (parse_comparison w raw) "car_model" "claim_car")
            (coerced_sub (parse_comparison w raw) "car_color" "claim_car")
            (coerced_sub (parse_comparison w raw) "damage_details" "claim_car")
            (coerced_top (parse_comparison w raw) "license_validity"));
         ("decision",
          PStr (if coerced_top (parse_comparison w raw) "license_validity"
                then accepted else rejected));
         ("email", email_text);
         ("steps", PList [PStr "Compared & Emailed"]) ]).
Proof.
  intros Hdl Hclaim Hcar Hbody Hraw Hemail Htext.
  unfold compare_and_email, dict_getitem. rewrite Hdl, Hclaim, Hcar.
  rewrite !io_bind_lift_ret, Hbody.
  apply io_bind_perform_ret_pair.
  rewrite Hraw, io_bind_lift_ret, normalize_comparison_schema, io_bind_lift_ret.
  rewrite decision_of_schema, io_bind_lift_ret, Hemail.
  apply io_bind_perform_ret_pair.
  rewrite Htext, io_bind_lift_ret. reflexivity.
Qed.

Lemma compare_and_email_result_witness :
  compare_and_email
    (sample_world PNone PNone "{}"
       (Some (PDict [("license_validity", PBool true)])))
    [("dl", PDict []); ("claim", PDict []); ("car", PDict [])]
  = ([EvInvokeModel 1; EvInvokeModel 2],
     ret [ ("comparison",
            verdict_schema false false false false false false false false
              false true);
           ("decision", PStr accepted);
           ("email", PStr "{}");
           ("steps", PList [PStr "Compared & Emailed"]) ]).
Proof.
  apply (@compare_and_email_result
           (sample_world PNone PNone "{}"
              (Some (PDict [("license_validity", PBool true)])))
           [("dl", PDict []); ("claim", PDict []); ("car", PDict [])]
           (PDict []) (PDict []) (PDict [])
           (PDict [("output",
              PDict [("message",
                PDict [("content", PList [PDict [("text", PStr "{}")]])])])])
           (PStr "{}")
           (PDict [("output",
              PDict [("message",
                PDict [("content", PList [PDict [("text", PStr "{}")]])])])])
           (PStr "{}"));
    reflexivity.
Defined.

(** X14: a verdict that cannot be read rejects the claim: when the reply of
    the model is not a text, holds no braces, or holds a span that
    [json.loads] refuses, every entry of the normalized verdict is false and
    the decision is "Claim Rejected". *)
Theorem unreadable_verdict_rejects (w : World) (raw : pyval) :
  (forall t, raw = PStr t ->
     re_search_braces t = None \/
     exists g, re_search_braces t = Some g /\ json_loads w g = None) ->
  normalize_comparison (parse_comparison w raw)
  = ret (verdict_schema false false false false false false false false false
           false) /\
  decision_of
    (verdict_schema false false false false false false false false false false)
  = ret rejected.
Proof.
  intro H. split; [| reflexivity].
  unfold parse_comparison.
  destruct raw; try reflexivity.
  destruct (H s eq_refl) as [-> | (g & -> & ->)]; reflexivity.
Qed.

Lemma unreadable_verdict_rejects_witness :
  normalize_comparison
    (parse_comparison (sample_world PNone PNone "" None)
       (PStr "I cannot compare these documents."))
  = ret (verdict_schema false false false false false false false false false
           false) /\
  decision_of
    (verdict_schema false false false false false false false false false false)
  = ret rejected.
Proof.
  apply unreadable_verdict_rejects.
  intros t E. injection E as <-. left. reflexivity.
Defined.


(** ** The whole run *)


(** ** [extract_car] *)

Lemma contains_dot_app (base ext : string) :
  contains "." (base ++ String "." ext) = true.
Proof.
  induction base as [| c base' IH]; [destruct ext; reflexivity |].
  simpl append. cbn [contains]. rewrite IH. apply orb_true_r.
Qed.

Lemma after_last_dot_app (base ext : string) :
  contains "." ext = false ->
  after_last_dot (base ++ String "." ext) = ext.
Proof.
  intro H. induction base as [| c base' IH]; simpl.
  - rewrite H. reflexivity.
  - rewrite contains_dot_app. exact IH.
Qed.

(** X16: a file whose name ends with an extension other than jpg, jpeg, png,
    gif or webp, in any letter case, is refused by [extract_car] with
    [ValueError] before the file is read and before the model is called. *)
Theorem extract_car_refuses_extension
  (w : World) (state : dict) (base ext : string) :
  dict_get "car_local" state = Some (PStr (base ++ String "." ext)) ->
  contains "." ext = false ->
  get_image_mime ext = None ->
  extract_car w state = ([], raise (ValueError "Unsupported image format")).
Proof.
  intros Hpath Hdot Hmime.
  unfold extract_car, dict_getitem. rewrite Hpath, io_bind_lift_ret.
  rewrite (after_last_dot_app base ext Hdot), Hmime. reflexivity.
Qed.

Lemma extract_car_refuses_extension_witness :
  extract_car (sample_world PNone PNone "" None)
    [("car_local", PStr "/tmp/0f8fad5b_damage.pdf")]
  = ([], raise (ValueError "Unsupported image format")).
Proof.
  apply (@extract_car_refuses_extension _ _ "/tmp/0f8fad5b_damage" "pdf");
    reflexivity.
Defined.

(** X17: with a supported image and a reply of the model that is a text,
    [extract_car] reads the file, calls the model once, and returns without
    raising whatever the text is: the car data are the embedded object when
    the text holds one that [json.loads] reads, and the whole reply under
    ["raw_output"] otherwise. *)
Theorem extract_car_text_reply
  (w : World) (state : dict) (p mime bytes t : string) (body : pyval) :
  dict_get "car_local" state = Some (PStr p) ->
  get_image_mime (after_last_dot p) = Some mime ->
  open_read w p = ret bytes ->
  invoke_model w 0 = ret body ->
  reply_text body = ret (PStr t) ->
  extract_car w state =
  ([EvOpen p; EvInvokeModel 0],
   ret [("car", car_data_of w t); ("steps", PList [PStr "Car Analyzed"])]).
Proof.
  intros Hpath Hmime Hread Hbody Hreply.
  unfold extract_car, dict_getitem. rewrite Hpath, io_bind_lift_ret, Hmime.
  rewrite Hread. apply io_bind_perform_ret_pair.
  rewrite Hbody. apply io_bind_perform_ret_pair.
  rewrite Hreply, io_bind_lift_ret. unfold car_data_of.
  destruct (re_search_braces t) as [g |]; [| reflexivity].
  destruct (json_loads w g); reflexivity.
Qed.

Lemma extract_car_text_reply_witness :
  extract_car (sample_world PNone PNone "It is a red sedan." None)
    [("car_local", PStr "/tmp/0f8fad5b_damage.JPG")]
  = ([EvOpen "/tmp/0f8fad5b_damage.JPG"; EvInvokeModel 0],
     ret [ ("car", PDict [("raw_output", PStr "It is a red sedan.")]);
           ("steps", PList [PStr "Car Analyzed"]) ]).
Proof.
  apply (@extract_car_text_reply
           (sample_world PNone PNone "It is a red sedan." None)
           [("car_local", PStr "/tmp/0f8fad5b_damage.JPG")]
           "/tmp/0f8fad5b_damage.JPG" "image/jpeg" "" "It is a red sedan."
           (PDict [("output",
              PDict [("message",
                PDict [("content",
                  PList [PDict [("text", PStr "It is a red sedan.")]])])])]));
    reflexivity.
Defined.

(** ** [upload_all] *)

Lemma upload_to_stage_ok (w : World) (name content filename : string) :
  (forall p, open_write w p = ret tt) ->
  (forall p, file_put w p = ret tt) ->
  upload_to_stage w (PFile name content) filename =
  ([ EvOpen (path_join (LOCAL_PATH w) filename);
     EvPut (path_join (LOCAL_PATH w) filename) ],
   ret (filename, path_join (LOCAL_PATH w) filename)).
Proof.
  intros Hopen Hput. unfold upload_to_stage. cbv zeta.
  rewrite Hopen, Hput. reflexivity.
Qed.

(** X18: when the three files are there and storage accepts them,
    [upload_all] writes and stages the license, the claim and the car photo,
    in that order, each under its own name prefixed by a fresh uuid and an
    underscore; it returns the three staged names, and the local path of the
    car photo only. *)
Theorem upload_all_stages_three_files
  (w : World) (state fs : dict) (n1 c1 n2 c2 n3 c3 : string) :
  dict_get "files" state = Some (PDict fs) ->
  dict_get "dl" fs = Some (PFile n1 c1) ->
  dict_get "claim" fs = Some (PFile n2 c2) ->
  dict_get "car" fs = Some (PFile n3 c3) ->
  (forall p, open_write w p = ret tt) ->
  (forall p, file_put w p = ret tt) ->
  upload_all w state =
  ([ EvOpen (path_join (LOCAL_PATH w) (uuid4 w 0 ++ "_" ++ n1));
     EvPut (path_join (LOCAL_PATH w) (uuid4 w 0 ++ "_" ++ n1));
     EvOpen (path_join (LOCAL_PATH w) (uuid4 w 1 ++ "_" ++ n2));
     EvPut (path_join (LOCAL_PATH w) (uuid4 w 1 ++ "_" ++ n2));
     EvOpen (path_join (LOCAL_PATH w) (uuid4 w 2 ++ "_" ++ n3));
     EvPut (path_join (LOCAL_PATH w) (uuid4 w 2 ++ "_" ++ n3)) ],
   ret [ ("dl_path", PStr (uuid4 w 0 ++ "_" ++ n1));
         ("claim_path", PStr (uuid4 w 1 ++ "_" ++ n2));
         ("car_path", PStr (uuid4 w 2 ++ "_" ++ n3));
         ("car_local",
          PStr (path_join (LOCAL_PATH w) (uuid4 w 2 ++ "_" ++ n3)));
         ("steps", PList [PStr "Uploaded"]) ]).
Proof.
  intros Hfiles Hdl Hclaim Hcar Hopen Hput.
  unfold upload_all, dict_get_default. rewrite Hfiles. cbv zeta.
  assert (Ht : truthy (PDict fs) = true)
    by (destruct fs; [discriminate Hdl | reflexivity]).
  rewrite Ht. cbn [negb].
  unfold upload_one, py_getitem, dict_getitem, file_name.
  rewrite Hdl, Hclaim, Hcar. rewrite !io_bind_lift_ret.
  rewrite !upload_to_stage_ok by assumption.
  reflexivity.
Qed.

Lemma upload_all_stages_three_files_witness :
  upload_all (sample_world PNone PNone "" None) [("files", sample_files)] =
  ([ EvOpen "/tmp/0f8fad5b_license.png"; EvPut "/tmp/0f8fad5b_license.png";
     EvOpen "/tmp/0f8fad5b_claim.pdf"; EvPut "/tmp/0f8fad5b_claim.pdf";
     EvOpen "/tmp/0f8fad5b_car.jpg"; EvPut "/tmp/0f8fad5b_car.jpg" ],
   ret [ ("dl_path", PStr "0f8fad5b_license.png");
         ("claim_path", PStr "0f8fad5b_claim.pdf");
         ("car_path", PStr "0f8fad5b_car.jpg");
         ("car_local", PStr "/tmp/0f8fad5b_car.jpg");
         ("steps", PList [PStr "Uploaded"]) ]).
Proof.
  apply (@upload_all_stages_three_files
           (sample_world PNone PNone "" None) [("files", sample_files)]
           [ ("dl", PFile "license.png" ""); ("claim", PFile "claim.pdf" "");
             ("car", PFile "car.jpg" "") ]
           "license.png" "" "claim.pdf" "" "car.jpg" "");
    reflexivity.
Defined.

(** ** Dates with slashes *)

Lemma zero_padded_2 (v : Z) :
  zero_padded 2 v =
  String (digit_char (v / 10)) (String (digit_char v) EmptyString).
Proof. reflexivity. Qed.

Lemma py_int_zero_padded_2 (v : Z) :
  0 <= v <= 99 -> py_int (zero_padded 2 v) = ret v.
Proof.
  intro Hv. rewrite zero_padded_2. unfold py_int, strip.
  cbn [lstrip]. rewrite (is_digit_not_space _ (is_digit_digit_char _)).
  cbn [rstrip].
  rewrite !(is_digit_not_space _ (is_digit_digit_char _)).
  cbn [digits_value]. rewrite !is_digit_digit_char, !digit_value_digit_char.
  unfold ret. f_equal. Z.div_mod_to_equations. lia.
Qed.

Ltac compute_token :=
  match goal with
  | |- context [zero_padded 2 ?n] =>
      let t := eval vm_compute in (zero_padded 2 n) in
      change (zero_padded 2 n) with t
  end.

Lemma day_token (d : Z) (items : list item) (s : string) (found : groups) :
  In d days ->
  match_items (Dir "d" :: Lit "/" :: items) (zero_padded 2 d ++ String "/" s)
    found
  = match_items items s (("d"%char, zero_padded 2 d) :: found).
Proof.
  intro H. unfold days in H. simpl in H.
  repeat (destruct H as [<- | H]); try contradiction;
    compute_token; cbn;
    destruct (match_items items s _); reflexivity.
Qed.

Lemma month_token (m : Z) (items : list item) (s : string) (found : groups) :
  In m months ->
  match_items (Dir "m" :: Lit "/" :: items) (zero_padded 2 m ++ String "/" s)
    found
  = match_items items s (("m"%char, zero_padded 2 m) :: found).
Proof.
  intro H. unfold months in H. simpl in H.
  repeat (destruct H as [<- | H]); try contradiction;
    compute_token; cbn;
    destruct (match_items items s _); reflexivity.
Qed.

Lemma month_token_over_12 (d : Z) (items : list item) (s : string)
  (found : groups) :
  In d days -> 12 < d ->
  match_items (Dir "m" :: Lit "/" :: items) (zero_padded 2 d ++ String "/" s)
    found = None.
Proof.
  intros H Hd. unfold days in H. simpl in H.
  repeat (destruct H as [<- | H]); try contradiction; try lia;
    compute_token; reflexivity.
Qed.

Lemma year4_token (y : Z) (found : groups) :
  match_items [Dir "Y"] (zero_padded 4 y) found
  = Some (("Y"%char, zero_padded 4 y) :: found, EmptyString).
Proof.
  rewrite zero_padded_4.
  cbn [match_items first_alternative match_classes in_class].
  change (directive_alternatives "Y")
    with [[CDigit; CDigit; CDigit; CDigit]].
  cbn [first_alternative match_classes in_class].
  rewrite !is_digit_digit_char. reflexivity.
Qed.

Lemma year4_token_short (yy : Z) (found : groups) :
  match_items [Dir "Y"] (zero_padded 2 yy) found = None.
Proof.
  rewrite zero_padded_2.
  cbn [match_items].
  change (directive_alternatives "Y")
    with [[CDigit; CDigit; CDigit; CDigit]].
  cbn [first_alternative match_classes in_class].
  rewrite !is_digit_digit_char. reflexivity.
Qed.

Lemma year2_token (yy : Z) (found : groups) :
  match_items [Dir "y"] (zero_padded 2 yy) found
  = Some (("y"%char, zero_padded 2 yy) :: found, EmptyString).
Proof.
  rewrite zero_padded_2.
  cbn [match_items].
  change (directive_alternatives "y") with [[CDigit; CDigit]].
  cbn [first_alternative match_classes in_class].
  rewrite !is_digit_digit_char. reflexivity.
Qed.

Lemma rstrip_cons (c : ascii) (t : string) :
  rstrip t = t -> t <> EmptyString -> rstrip (String c t) = String c t.
Proof.
  intros H Hne. simpl. rewrite H.
  destruct t; [contradiction Hne; reflexivity | reflexivity].
Qed.

Lemma rstrip_digits_4 (y : Z) : rstrip (zero_padded 4 y) = zero_padded 4 y.
Proof.
  rewrite zero_padded_4. cbn [rstrip].
  rewrite !(is_digit_not_space _ (is_digit_digit_char _)). reflexivity.
Qed.

Lemma rstrip_digits_2 (v : Z) : rstrip (zero_padded 2 v) = zero_padded 2 v.
Proof.
  rewrite zero_padded_2. cbn [rstrip].
  rewrite !(is_digit_not_space _ (is_digit_digit_char _)). reflexivity.
Qed.

Lemma strip_slash_date (a b : Z) (yr : string) :
  rstrip yr = yr -> yr <> EmptyString ->
  strip (slash_date a b yr) = slash_date a b yr.
Proof.
  intros Hyr Hne. unfold slash_date. rewrite !zero_padded_2.
  cbn [append]. unfold strip. cbn [lstrip].
  rewrite (is_digit_not_space _ (is_digit_digit_char _)).
  repeat (apply rstrip_cons; [| discriminate]).
  apply rstrip_cons; [exact Hyr | exact Hne].
Qed.

Lemma zero_padded_4_not_empty (y : Z) : zero_padded 4 y <> EmptyString.
Proof. rewrite zero_padded_4. discriminate. Qed.

Lemma zero_padded_2_not_empty (v : Z) : zero_padded 2 v <> EmptyString.
Proof. rewrite zero_padded_2. discriminate. Qed.

Lemma parse_date_slash_start (a b : Z) (yr : string) :
  rstrip yr = yr -> yr <> EmptyString ->
  parse_date (PStr (slash_date a b yr))
  = parse_date_loop (slash_date a b yr) formats.
Proof.
  intros Hyr Hne. unfold parse_date.
  assert (Ht : truthy (PStr (slash_date a b yr)) = true)
    by (unfold slash_date; rewrite zero_padded_2; reflexivity).
  rewrite Ht. cbn [negb orb isinstance_str].
  rewrite (strip_slash_date a b Hyr Hne). reflexivity.
Qed.

Lemma strptime_day_first_4 (y m d : Z) :
  valid_date y m d = true ->
  strptime (slash_date d m (zero_padded 4 y)) "%d/%m/%Y" = ret (mkdate y m d).
Proof.
  intro Hvalid.
  pose proof (valid_date_bounds _ _ _ Hvalid) as (Hy & Hm & Hd).
  unfold strptime, slash_date.
  change (format_items "%d/%m/%Y")
    with [Dir "d"; Lit "/"; Dir "m"; Lit "/"; Dir "Y"]%char.
  rewrite (day_token _ _ _ (day_in_days Hd)).
  rewrite (month_token _ _ _ (month_in_months Hm)).
  rewrite year4_token.
  cbn [negb String.eqb group_int group Ascii.eqb Bool.eqb].
  rewrite py_int_zero_padded_4, !py_int_zero_padded_2 by lia.
  cbn [bind ret]. unfold make_date. rewrite Hvalid. reflexivity.
Qed.

(** X19: a calendar date written day first, as DD/MM/YYYY with two digits
    for the day and the month and four for the year, is read by [parse_date]
    as that day of that month, also when the first two numbers could be read
    the other way round. *)
Theorem parse_date_day_first (y m d : Z) :
  valid_date y m d = true ->
  parse_date (PStr (slash_date d m (zero_padded 4 y)))
  = ret (PDate (mkdate y m d)).
Proof.
  intro Hvalid.
  rewrite parse_date_slash_start
    by (apply rstrip_digits_4 || apply zero_padded_4_not_empty).
  unfold formats. rewrite parse_date_loop_cons. unfold try_format.
  rewrite (strptime_day_first_4 _ _ _ Hvalid). reflexivity.
Qed.

Lemma parse_date_day_first_witness :
  parse_date (PStr "03/04/2005") = ret (PDate (mkdate 2005 4 3)).
Proof. apply (parse_date_day_first 2005 4 3). reflexivity. Defined.

Lemma month_in_days (m : Z) : 1 <= m <= 12 -> In m days.
Proof. intro H. apply day_in_days. lia. Qed.

Lemma strptime_day_first_fails (y m d : Z) (yr : string) (tail : list item) :
  valid_date y m d = true -> 12 < d ->
  match_items (Dir "d" :: Lit "/" :: Dir "m" :: Lit "/" :: tail)%char
    (slash_date m d yr) [] = None.
Proof.
  intros Hvalid Hd.
  pose proof (valid_date_bounds _ _ _ Hvalid) as (_ & Hm & Hd').
  unfold slash_date.
  rewrite (day_token _ _ _ (month_in_days Hm)).
  apply month_token_over_12; [apply day_in_days; lia | exact Hd].
Qed.

Lemma strptime_month_first_4 (y m d : Z) :
  valid_date y m d = true ->
  strptime (slash_date m d (zero_padded 4 y)) "%m/%d/%Y" = ret (mkdate y m d).
Proof.
  intro Hvalid.
  pose proof (valid_date_bounds _ _ _ Hvalid) as (Hy & Hm & Hd).
  unfold strptime, slash_date.
  change (format_items "%m/%d/%Y")
    with [Dir "m"; Lit "/"; Dir "d"; Lit "/"; Dir "Y"]%char.
  rewrite (month_token _ _ _ (month_in_months Hm)).
  rewrite (day_token _ _ _ (day_in_days Hd)).
  rewrite year4_token.
  cbn [negb String.eqb group_int group Ascii.eqb Bool.eqb].
  rewrite py_int_zero_padded_4, !py_int_zero_padded_2 by lia.
  cbn [bind ret]. unfold make_date. rewrite Hvalid. reflexivity.
Qed.

(** X20: a calendar date written month first, as MM/DD/YYYY, is read by
    [parse_date] as that date when its day is above 12, that is, when the
    day-first reading is impossible. *)
Theorem parse_date_month_first (y m d : Z) :
  valid_date y m d = true -> 12 < d ->
  parse_date (PStr (slash_date m d (zero_padded 4 y)))
  = ret (PDate (mkdate y m d)).
Proof.
  intros Hvalid Hd.
  rewrite parse_date_slash_start
    by (apply rstrip_digits_4 || apply zero_padded_4_not_empty).
  unfold formats. rewrite !parse_date_loop_cons.
  assert (H1 : try_format (slash_date m d (zero_padded 4 y)) "%d/%m/%Y"
               = raise (ValueError "time data does not match format")).
  { unfold try_format, strptime.
    change (format_items "%d/%m/%Y")
      with [Dir "d"; Lit "/"; Dir "m"; Lit "/"; Dir "Y"]%char.
    rewrite (@strptime_day_first_fails y m d _ _ Hvalid Hd). reflexivity. }
  assert (H2 : try_format (slash_date m d (zero_padded 4 y)) "%d/%m/%y"
               = raise (ValueError "time data does not match format")).
  { unfold try_format, strptime.
    change (format_items "%d/%m/%y")
      with [Dir "d"; Lit "/"; Dir "m"; Lit "/"; Dir "y"]%char.
    rewrite (@strptime_day_first_fails y m d _ _ Hvalid Hd). reflexivity. }
  rewrite H1, H2. unfold raise, try_format.
  rewrite (strptime_month_first_4 _ _ _ Hvalid). reflexivity.
Qed.

Lemma parse_date_month_first_witness :
  parse_date (PStr "04/13/1995") = ret (PDate (mkdate 1995 4 13)).
Proof. apply (@parse_date_month_first 1995 4 13); [reflexivity | lia]. Defined.

Lemma strptime_day_first_2 (y m d : Z) :
  valid_date y m d = true -> 1969 <= y <= 2068 ->
  strptime (slash_date d m (zero_padded 2 (y mod 100))) "%d/%m/%y"
  = ret (mkdate y m d).
Proof.
  intros Hvalid Hy.
  pose proof (valid_date_bounds _ _ _ Hvalid) as (_ & Hm & Hd).
  unfold strptime, slash_date.
  change (format_items "%d/%m/%y")
    with [Dir "d"; Lit "/"; Dir "m"; Lit "/"; Dir "y"]%char.
  rewrite (day_token _ _ _ (day_in_days Hd)).
  rewrite (month_token _ _ _ (month_in_months Hm)).
  rewrite year2_token.
  cbn [negb String.eqb group_int group Ascii.eqb Bool.eqb].
  assert (Hyy : 0 <= y mod 100 <= 99)
    by (pose proof (Z.mod_pos_bound y 100); lia).
  rewrite !py_int_zero_padded_2 by lia.
  cbn [bind ret].
  assert (Hyear : (if y mod 100 <=? 68 then y mod 100 + 2000
                   else y mod 100 + 1900) = y).
  { destruct (y mod 100 <=? 68) eqn:E.
    - apply Z.leb_le in E. Z.div_mod_to_equations. lia.
    - apply Z.leb_gt in E. Z.div_mod_to_equations. lia. }
  rewrite Hyear. unfold make_date. rewrite Hvalid. reflexivity.
Qed.

(** X21: a calendar date from 1969 to 2068 written day first with the last
    two digits of its year, as DD/MM/YY, is read by [parse_date] as that
    date: the two digits 00 to 68 stand for 2000 to 2068, and 69 to 99 for
    1969 to 1999. *)
Theorem parse_date_two_digit_year (y m d : Z) :
  valid_date y m d = true -> 1969 <= y <= 2068 ->
  parse_date (PStr (slash_date d m (zero_padded 2 (y mod 100))))
  = ret (PDate (mkdate y m d)).
Proof.
  intros Hvalid Hy.
  pose proof (valid_date_bounds _ _ _ Hvalid) as (_ & Hm & Hd).
  rewrite parse_date_slash_start
    by (apply rstrip_digits_2 || apply zero_padded_2_not_empty).
  unfold formats. rewrite !parse_date_loop_cons.
  assert (H1 : try_format (slash_date d m (zero_padded 2 (y mod 100)))
                 "%d/%m/%Y"
               = raise (ValueError "time data does not match format")).
  { unfold try_format, strptime, slash_date.
    change (format_items "%d/%m/%Y")
      with [Dir "d"; Lit "/"; Dir "m"; Lit "/"; Dir "Y"]%char.
    rewrite (day_token _ _ _ (day_in_days Hd)).
    rewrite (month_token _ _ _ (month_in_months Hm)).
    rewrite year4_token_short. reflexivity. }
  assert (H2 : try_format (slash_date d m (zero_padded 2 (y mod 100)))
                 "%d/%m/%y"
               = ret (mkdate y m d)).
  { unfold try_format. rewrite (@strptime_day_first_2 y m d Hvalid Hy).
    assert (Hfix : (y <? 1930) = false) by (apply Z.ltb_ge; lia).
    simpl. rewrite Hfix. reflexivity. }
  rewrite H1, H2. reflexivity.
Qed.

Lemma parse_date_two_digit_year_witness :
  parse_date (PStr "21/05/99") = ret (PDate (mkdate 1999 5 21)).
Proof. apply (@parse_date_two_digit_year 1999 5 21); [reflexivity | lia]. Defined.
